(** * Entry/Exit dashboard: settings page and server configuration

    A shallow embedding of [frontend/lib/server-config.ts] and of the
    [SettingsClient] component (SMTP, users and notifications panels),
    with the properties of the specification proved over it. *)

From Stdlib Require Import String Ascii List ZArith NArith Bool Lia DecimalString.
Import ListNotations.
Local Open Scope string_scope.
Local Open Scope Z_scope.

(** ** JavaScript values used by the page *)

Module Js.

(** Strings are sequences of 8-bit code units.  [is_whitespace] is the
    ECMAScript WhiteSpace / LineTerminator set restricted to that range:
    TAB, LF, VT, FF, CR, SP and NBSP. *)
Definition is_whitespace (c : ascii) : bool :=
  let n := nat_of_ascii c in
  existsb (Nat.eqb n) [9; 10; 11; 12; 13; 32; 160]%nat.

(** [String.prototype.trimStart]. *)
Fixpoint trimStart (s : string) : string :=
  match s with
  | EmptyString => EmptyString
  | String c t => if is_whitespace c then trimStart t else s
  end.

(** [String.prototype.trimEnd]. *)
Fixpoint trimEnd (s : string) : string :=
  match s with
  | EmptyString => EmptyString
  | String c t =>
      match trimEnd t with
      | EmptyString => if is_whitespace c then EmptyString else String c EmptyString
      | t' => String c t'
      end
  end.

(** [String.prototype.trim]. *)
Definition trim (s : string) : string := trimEnd (trimStart s).

(** Relative index of [slice]: a negative index counts from the end,
    and the result is clamped to [0, len]. *)
Definition clamp_index (len i : Z) : Z :=
  if i <? 0 then Z.max (len + i) 0 else Z.min i len.

(** [String.prototype.slice(start, end)]. *)
Definition slice (s : string) (start stop : Z) : string :=
  let len := Z.of_nat (String.length s) in
  let from := clamp_index len start in
  let to := clamp_index len stop in
  substring (Z.to_nat from) (Z.to_nat (Z.max (to - from) 0)) s.

(** [String.prototype.endsWith(suffix)]. *)
Definition endsWith (s suffix : string) : bool :=
  let n := String.length s in
  let m := String.length suffix in
  (m <=? n)%nat && (substring (n - m) m s =? suffix)%string.

(** Truthiness of a string: every string but the empty one. *)
Definition truthy (s : string) : bool := negb (s =? "")%string.

(** [a || b] on strings. *)
Definition or (a b : string) : string := if truthy a then a else b.

(** [a ?? b] where [a] may be [null] or [undefined]. *)
Definition nullish {A : Type} (a : option A) (b : A) : A :=
  match a with Some v => v | None => b end.

(** An [Error] object, as far as handlers look at it. *)
Record Error := { name : string; message : string }.

(** [new Error(msg)]. *)
Definition new_Error (msg : string) : Error :=
  {| name := "Error"; message := msg |}.

(** The [DOMException] with which an aborted [fetch] or body read
    rejects. *)
Definition AbortError : Error :=
  {| name := "AbortError"; message := "signal is aborted without reason" |}.

End Js.

(** ** [frontend/lib/server-config.ts] *)

Module ServerConfig.

Definition TOKEN_COOKIE_NAME : string := "oc_hr_admin_token".

(** The three variables of [process.env] the module reads; an unset
    variable is [undefined]. *)
Record ProcessEnv := {
  BACKEND_API_URL : option string;
  API_BASE_URL : option string;
  NEXT_PUBLIC_API_BASE_URL : option string
}.

(** [v?.trim()]. *)
Definition optional_trim (v : option string) : option string :=
  match v with
  | Some s => Some (Js.trim s)
  | None => None
  end.

(** Truthiness of [string | undefined]. *)
Definition truthy (v : option string) : bool :=
  match v with
  | Some s => Js.truthy s
  | None => false
  end.

(** [a || b] on [string | undefined]. *)
Definition or (a b : option string) : option string :=
  if truthy a then a else b.

Definition missing_url_message : string :=
  "Set BACKEND_API_URL (or API_BASE_URL) to your FastAPI URL.".

(** [getBackendApiUrl()]: the URL, or the error it throws. *)
Definition getBackendApiUrl (env : ProcessEnv) : string + Js.Error :=
  let raw :=
    or (or (optional_trim (BACKEND_API_URL env))
           (optional_trim (API_BASE_URL env)))
       (optional_trim (NEXT_PUBLIC_API_BASE_URL env)) in
  match raw with
  | Some r =>
      if negb (Js.truthy r) then inr (Js.new_Error missing_url_message)
      else inl (if Js.endsWith r "/" then Js.slice r 0 (-1) else r)
  | None => inr (Js.new_Error missing_url_message)
  end.

(** The variables in the order in which they are consulted. *)
Definition candidates (env : ProcessEnv) : list (option string) :=
  [BACKEND_API_URL env; API_BASE_URL env; NEXT_PUBLIC_API_BASE_URL env].

(** A variable is usable when it is set and not blank once trimmed. *)
Definition non_blank (v : option string) : Prop :=
  exists s, v = Some s /\ Js.trim s <> "".

(** The contract in words: the first variable, in consultation order,
    that is set to a value which is not blank once trimmed. *)
Fixpoint first_non_blank (vars : list (option string)) : option string :=
  match vars with
  | [] => None
  | Some s :: rest =>
      if (Js.trim s =? "")%string then first_non_blank rest else Some s
  | None :: rest => first_non_blank rest
  end.

End ServerConfig.

(** ** The number input of the DOM *)

Module Dom.

Definition is_digit (c : ascii) : bool :=
  let n := nat_of_ascii c in (48 <=? n)%nat && (n <=? 57)%nat.

Fixpoint skip_digits (s : string) : string :=
  match s with
  | String c t => if is_digit c then skip_digits t else s
  | EmptyString => EmptyString
  end.

(** One or more ASCII digits; gives what follows them. *)
Definition digits (s : string) : option string :=
  match s with
  | String c t => if is_digit c then Some (skip_digits t) else None
  | EmptyString => None
  end.

(** A fractional part: a dot followed by one or more digits. *)
Definition fraction (s : string) : option string :=
  match s with
  | String "."%char t => digits t
  | _ => None
  end.

(** Nothing, or an exponent ([e] or [E], an optional sign, one or more
    digits) and then nothing. *)
Definition exponent_or_end (s : string) : bool :=
  match s with
  | EmptyString => true
  | String c t =>
      if (Ascii.eqb c "e" || Ascii.eqb c "E")%char then
        let t' :=
          match t with
          | String sign u =>
              if (Ascii.eqb sign "-" || Ascii.eqb sign "+")%char then u else t
          | EmptyString => t
          end in
        match digits t' with
        | Some EmptyString => true
        | _ => false
        end
      else false
  end.

(** The "valid floating-point number" of the HTML standard: an optional
    minus sign, an integer part or a fractional part or both, and an
    optional exponent. *)
Definition valid_floating_point_number (s : string) : bool :=
  let unsigned :=
    match s with
    | String "-"%char t => t
    | _ => s
    end in
  match digits unsigned with
  | Some (String "."%char t) =>
      match digits t with
      | Some rest => exponent_or_end rest
      | None => false
      end
  | Some rest => exponent_or_end rest
  | None =>
      match fraction unsigned with
      | Some rest => exponent_or_end rest
      | None => false
      end
  end.

(** The [value] of an [<input type="number">] holding the text [typed]:
    the value sanitization of the HTML standard turns anything that is
    not a valid floating-point number into the empty string. *)
Definition number_input_value (typed : string) : string :=
  if valid_floating_point_number typed then typed else "".

End Dom.

(** ** The settings page: data *)

Section Settings.

(** A JavaScript [number] is an IEEE double; the page only moves numbers
    around and obtains them from literals and from [Number(text)], so
    the type and the runtime's string conversion are parameters. *)
Context {JsNumber : Type}.
Variable num : Z -> JsNumber.
Variable StringToNumber : string -> JsNumber.

(** [handleUnauthorized] comes from the [useAuthUser] hook: given a
    response status it answers whether it consumed the response as an
    expired session.  What it does to the session then is the hook's
    business and leaves the page's own state alone. *)
Variable handleUnauthorized : Z -> bool.

Inductive SettingsSection := Smtp | Users | Notifications.

Inductive UserRole := admin | inspector.

Definition UserRole_eqb (a b : UserRole) : bool :=
  match a, b with
  | admin, admin | inspector, inspector => true
  | _, _ => false
  end.

(** [AuthUser], from [use-auth-user]: the fields the page reads. *)
Record AuthUser := { role : UserRole; username : string }.

Inductive EmpId := EmpIdNumber (n : Z) | EmpIdString (s : string).

Record Employee := {
  emp_id : EmpId;
  card_no : string;
  employee_name : string
}.

Record SMTPSettings := {
  host : string;
  port : JsNumber;
  smtp_username : string;
  password : string;
  from_email : string;
  from_name : string;
  use_tls : bool;
  use_ssl : bool;
  cc_list : string;
  updated_at : option string
}.

Record UserItem := {
  id : Z;
  email : string;
  user_username : string;
  user_role : UserRole;
  is_active : bool;
  created_at : string;
  user_updated_at : string;
  last_login_at : option string
}.

Record NotificationResult := {
  result_card_no : string;
  result_employee_name : string;
  status_text : string;
  notice_type : option string;
  to_email : option string;
  result_error : option string
}.

Record NotificationRunResponse := {
  date : string;
  total_targets : Z;
  sent_count : Z;
  skipped_count : Z;
  failed_count : Z;
  results : list NotificationResult
}.

(** The creation form of the users panel ([newUser]). *)
Record NewUser := {
  new_email : string;
  new_username : string;
  new_password : string;
  new_role : UserRole
}.

(** *** Component state

    One record per group of [useState] cells, in declaration order. *)

(** What [useAuthUser] hands to the page. *)
Record AuthState := {
  me : option AuthUser;
  loading : bool;
  error : string
}.

Record SmtpState := {
  smtpForm : SMTPSettings;
  smtpLoading : bool;
  smtpSaving : bool;
  smtpMessage : string
}.

Record UsersState := {
  users : list UserItem;
  usersLoading : bool;
  usersMessage : string;
  newUser : NewUser
}.

Record NotifyState := {
  notifyDate : string;
  notifyRunning : bool;
  notifyResult : option NotificationRunResponse;
  notifyMessage : string;
  employeeSearch : string;
  employees : list Employee;
  selectedCardNo : string;
  employeeLoading : bool
}.

Record State := {
  section : SettingsSection;
  auth : AuthState;
  smtp : SmtpState;
  usersPanel : UsersState;
  notify : NotifyState
}.

(** The initial values of the [useState] cells. *)
Definition initial_smtpForm : SMTPSettings :=
  {| host := ""; port := num 587; smtp_username := ""; password := "";
     from_email := ""; from_name := "Oilchem Entry/Exit Admin";
     use_tls := true; use_ssl := false; cc_list := ""; updated_at := None |}.

Definition initial_newUser : NewUser :=
  {| new_email := ""; new_username := ""; new_password := "";
     new_role := inspector |}.

(** [today] is the value of [todayIsoDate()] at mount. *)
Definition initial_state (sec : SettingsSection) (a : AuthState)
    (today : string) : State :=
  {| section := sec;
     auth := a;
     smtp := {| smtpForm := initial_smtpForm; smtpLoading := false;
                smtpSaving := false; smtpMessage := "" |};
     usersPanel := {| users := []; usersLoading := false;
                      usersMessage := ""; newUser := initial_newUser |};
     notify := {| notifyDate := today; notifyRunning := false;
                  notifyResult := None; notifyMessage := "";
                  employeeSearch := ""; employees := [];
                  selectedCardNo := ""; employeeLoading := false |} |}.

(** [me?.role !== "admin"], negated. *)
Definition is_admin (st : State) : bool :=
  match me (auth st) with
  | Some u => UserRole_eqb (role u) admin
  | None => false
  end.

(** What the component renders: the placeholder while the session is
    unresolved, the access-denied page for a non-admin, and otherwise the
    panel of the requested section. *)
Inductive View := LoadingSettings | AccessDenied | Panel (sec : SettingsSection).

Definition render (st : State) : View :=
  match me (auth st) with
  | None => LoadingSettings
  | Some u =>
      if loading (auth st) then LoadingSettings
      else if negb (UserRole_eqb (role u) admin) then AccessDenied
      else Panel (section st)
  end.

(** *** Requests and responses *)

Inductive Method := GET | POST | PUT | PATCH | DELETE.

(** The proxy paths the page calls, with the values interpolated into
    them.  [EmployeesUrl q] is
    [/api/proxy/employees?search=${encodeURIComponent(q)}] and
    [NotificationsRunUrl params] is
    [/api/proxy/notifications/run?${params.toString()}]. *)
Inductive Url :=
| SmtpSettingsUrl
| UsersUrl
| UserUrl (userId : Z)
| ResetLinkUrl (userId : Z)
| EmployeesUrl (search : string)
| NotificationsRunUrl (params : list (string * string)).

(** The argument of [patchUser]: every field is optional. *)
Record UserPatch := {
  patch_role : option UserRole;
  patch_is_active : option bool;
  patch_password : option string
}.

(** What [JSON.stringify] is applied to. *)
Inductive Body :=
| NoBody
| SmtpBody (form : SMTPSettings)
| NewUserBody (u : NewUser)
| PatchBody (p : UserPatch).

Record Request := { method : Method; url : Url; body : Body }.

(** The body of a failed response, read as
    [{ detail?: string; error?: string }]. *)
Record ErrorPayload := {
  payload_error : option string;
  payload_detail : option string
}.

(** What [await response.json()] gives: a value, or a rejection. *)
Inductive JsonResult (T : Type) :=
| JsonValue (v : T)
| JsonFailure (e : Js.Error).
Arguments JsonValue {T} v.
Arguments JsonFailure {T} e.

(** A response as the handlers observe it: its status, what
    [await response.json().catch(() => null)] gives when the body is read
    as an error payload ([None] is [null]), and what
    [await response.json()] gives when it is read as the success payload
    [T].  A handler reads the body once, along one of the two paths. *)
Record Response (T : Type) := {
  status : Z;
  error_json : option ErrorPayload;
  json : JsonResult T
}.
Arguments status {T} r.
Arguments error_json {T} r.
Arguments json {T} r.

(** What [await fetch(...)] gives: a rejection (network failure, abort)
    or a response. *)
Inductive FetchResult (T : Type) :=
| Rejects (e : Js.Error)
| Resolves (r : Response T).
Arguments Rejects {T} e.
Arguments Resolves {T} r.

(** [response.ok]. *)
Definition ok (status : Z) : bool := (200 <=? status) && (status <=? 299).

(** [payload?.error ?? payload?.detail ?? fallback]. *)
Definition failure_message (payload : option ErrorPayload)
    (fallback : string) : string :=
  let error_field :=
    match payload with Some p => payload_error p | None => None end in
  let detail_field :=
    match payload with Some p => payload_detail p | None => None end in
  Js.nullish
    (match error_field with Some e => Some e | None => detail_field end)
    fallback.

(** The success payload of the SMTP resource.  It is typed
    [Omit<SMTPSettings, "password">], but the object is whatever the
    backend sent: any key may be there or not, [password] included. *)
Record SmtpPayload := {
  p_host : option string;
  p_port : option JsNumber;
  p_username : option string;
  p_password : option string;
  p_from_email : option string;
  p_from_name : option string;
  p_use_tls : option bool;
  p_use_ssl : option bool;
  p_cc_list : option string;
  p_updated_at : option (option string)
}.

(** *** Handlers: state, issued requests and exceptions

    A handler runs over the component state and the list of requests
    issued so far, and either returns or throws. *)

Record World := { ui : State; requests : list Request }.

Definition Handler (A : Type) : Type := World -> (A + Js.Error) * World.

Definition ret {A : Type} (a : A) : Handler A := fun w => (inl a, w).

Definition bind {A B : Type} (c : Handler A) (k : A -> Handler B) : Handler B :=
  fun w =>
    match c w with
    | (inl a, w') => k a w'
    | (inr e, w') => (inr e, w')
    end.

Definition throw {A : Type} (e : Js.Error) : Handler A := fun w => (inr e, w).

(** [try { body } catch (err) { handler }]. *)
Definition try_catch {A : Type} (body : Handler A)
    (handler : Js.Error -> Handler A) : Handler A :=
  fun w =>
    match body w with
    | (inl a, w') => (inl a, w')
    | (inr e, w') => handler e w'
    end.

(** [try { body } finally { cleanup }]: [cleanup] runs however [body]
    ends, an early [return] included. *)
Definition try_finally {A : Type} (body : Handler A)
    (cleanup : Handler unit) : Handler A :=
  fun w =>
    match body w with
    | (r, w') =>
        match cleanup w' with
        | (inl _, w'') => (r, w'')
        | (inr e, w'') => (inr e, w'')
        end
    end.

(** The values a handler closes over: those of the render it belongs to. *)
Definition snapshot : Handler State := fun w => (inl (ui w), w).

(** A state setter. *)
Definition update (f : State -> State) : Handler unit :=
  fun w => (inl tt, {| ui := f (ui w); requests := requests w |}).

(** The request of a [fetch] call goes out. *)
Definition send (req : Request) : Handler unit :=
  fun w => (inl tt, {| ui := ui w; requests := requests w ++ [req] |}).

(** The promise of a [fetch] call settles. *)
Definition settles {T : Type} (net : FetchResult T) : Handler (Response T) :=
  match net with
  | Rejects e => throw e
  | Resolves r => ret r
  end.

(** [await fetch(...)]: the request goes out, and the call gives what the
    network answers. *)
Definition fetch {T : Type} (req : Request) (net : FetchResult T)
    : Handler (Response T) :=
  bind (send req) (fun _ => settles net).

(** [await response.json()]. *)
Definition read_json {T : Type} (r : Response T) : Handler T :=
  match json r with
  | JsonValue v => ret v
  | JsonFailure e => throw e
  end.

Notation "x <- c ;; k" := (bind c (fun x => k))
  (at level 61, c at next level, right associativity).
Notation "c ;; k" := (bind c (fun _ => k))
  (at level 61, right associativity).

(** *** State setters *)

Definition with_smtp (f : SmtpState -> SmtpState) (st : State) : State :=
  {| section := section st; auth := auth st; smtp := f (smtp st);
     usersPanel := usersPanel st; notify := notify st |}.

Definition with_users (f : UsersState -> UsersState) (st : State) : State :=
  {| section := section st; auth := auth st; smtp := smtp st;
     usersPanel := f (usersPanel st); notify := notify st |}.

Definition with_notify (f : NotifyState -> NotifyState) (st : State) : State :=
  {| section := section st; auth := auth st; smtp := smtp st;
     usersPanel := usersPanel st; notify := f (notify st) |}.

(** [setError], the setter of the session hook's message. *)
Definition setError (v : string) : Handler unit :=
  update (fun st =>
    {| section := section st;
       auth := {| me := me (auth st); loading := loading (auth st);
                  error := v |};
       smtp := smtp st; usersPanel := usersPanel st; notify := notify st |}).

Definition setSmtpForm (f : SMTPSettings -> SMTPSettings) : Handler unit :=
  update (with_smtp (fun p =>
    {| smtpForm := f (smtpForm p); smtpLoading := smtpLoading p;
       smtpSaving := smtpSaving p; smtpMessage := smtpMessage p |})).

Definition setSmtpLoading (v : bool) : Handler unit :=
  update (with_smtp (fun p =>
    {| smtpForm := smtpForm p; smtpLoading := v;
       smtpSaving := smtpSaving p; smtpMessage := smtpMessage p |})).

Definition setSmtpSaving (v : bool) : Handler unit :=
  update (with_smtp (fun p =>
    {| smtpForm := smtpForm p; smtpLoading := smtpLoading p;
       smtpSaving := v; smtpMessage := smtpMessage p |})).

Definition setSmtpMessage (v : string) : Handler unit :=
  update (with_smtp (fun p =>
    {| smtpForm := smtpForm p; smtpLoading := smtpLoading p;
       smtpSaving := smtpSaving p; smtpMessage := v |})).

Definition setUsers (v : list UserItem) : Handler unit :=
  update (with_users (fun p =>
    {| users := v; usersLoading := usersLoading p;
       usersMessage := usersMessage p; newUser := newUser p |})).

Definition setUsersLoading (v : bool) : Handler unit :=
  update (with_users (fun p =>
    {| users := users p; usersLoading := v;
       usersMessage := usersMessage p; newUser := newUser p |})).

Definition setUsersMessage (v : string) : Handler unit :=
  update (with_users (fun p =>
    {| users := users p; usersLoading := usersLoading p;
       usersMessage := v; newUser := newUser p |})).

Definition setNewUser (v : NewUser) : Handler unit :=
  update (with_users (fun p =>
    {| users := users p; usersLoading := usersLoading p;
       usersMessage := usersMessage p; newUser := v |})).

Definition setNotifyRunning (v : bool) : Handler unit :=
  update (with_notify (fun p =>
    {| notifyDate := notifyDate p; notifyRunning := v;
       notifyResult := notifyResult p; notifyMessage := notifyMessage p;
       employeeSearch := employeeSearch p; employees := employees p;
       selectedCardNo := selectedCardNo p;
       employeeLoading := employeeLoading p |})).

Definition setNotifyResult (v : option NotificationRunResponse) : Handler unit :=
  update (with_notify (fun p =>
    {| notifyDate := notifyDate p; notifyRunning := notifyRunning p;
       notifyResult := v; notifyMessage := notifyMessage p;
       employeeSearch := employeeSearch p; employees := employees p;
       selectedCardNo := selectedCardNo p;
       employeeLoading := employeeLoading p |})).

Definition setNotifyMessage (v : string) : Handler unit :=
  update (with_notify (fun p =>
    {| notifyDate := notifyDate p; notifyRunning := notifyRunning p;
       notifyResult := notifyResult p; notifyMessage := v;
       employeeSearch := employeeSearch p; employees := employees p;
       selectedCardNo := selectedCardNo p;
       employeeLoading := employeeLoading p |})).

Definition setEmployeeSearch (v : string) : Handler unit :=
  update (with_notify (fun p =>
    {| notifyDate := notifyDate p; notifyRunning := notifyRunning p;
       notifyResult := notifyResult p; notifyMessage := notifyMessage p;
       employeeSearch := v; employees := employees p;
       selectedCardNo := selectedCardNo p;
       employeeLoading := employeeLoading p |})).

Definition setEmployees (v : list Employee) : Handler unit :=
  update (with_notify (fun p =>
    {| notifyDate := notifyDate p; notifyRunning := notifyRunning p;
       notifyResult := notifyResult p; notifyMessage := notifyMessage p;
       employeeSearch := employeeSearch p; employees := v;
       selectedCardNo := selectedCardNo p;
       employeeLoading := employeeLoading p |})).

Definition setSelectedCardNo (f : string -> string) : Handler unit :=
  update (with_notify (fun p =>
    {| notifyDate := notifyDate p; notifyRunning := notifyRunning p;
       notifyResult := notifyResult p; notifyMessage := notifyMessage p;
       employeeSearch := employeeSearch p; employees := employees p;
       selectedCardNo := f (selectedCardNo p);
       employeeLoading := employeeLoading p |})).

Definition setEmployeeLoading (v : bool) : Handler unit :=
  update (with_notify (fun p =>
    {| notifyDate := notifyDate p; notifyRunning := notifyRunning p;
       notifyResult := notifyResult p; notifyMessage := notifyMessage p;
       employeeSearch := employeeSearch p; employees := employees p;
       selectedCardNo := selectedCardNo p;
       employeeLoading := v |})).

(** ** SMTP panel *)

(** [{ ...current, ...payload }]: every key the payload has replaces the
    form's. *)
Definition assign_payload (current : SMTPSettings) (payload : SmtpPayload)
    : SMTPSettings :=
  {| host := Js.nullish (p_host payload) (host current);
     port := Js.nullish (p_port payload) (port current);
     smtp_username := Js.nullish (p_username payload) (smtp_username current);
     password := Js.nullish (p_password payload) (password current);
     from_email := Js.nullish (p_from_email payload) (from_email current);
     from_name := Js.nullish (p_from_name payload) (from_name current);
     use_tls := Js.nullish (p_use_tls payload) (use_tls current);
     use_ssl := Js.nullish (p_use_ssl payload) (use_ssl current);
     cc_list := Js.nullish (p_cc_list payload) (cc_list current);
     updated_at := Js.nullish (p_updated_at payload) (updated_at current) |}.

(** [{ ...form, password: v }]. *)
Definition with_password (v : string) (form : SMTPSettings) : SMTPSettings :=
  {| host := host form; port := port form;
     smtp_username := smtp_username form; password := v;
     from_email := from_email form; from_name := from_name form;
     use_tls := use_tls form; use_ssl := use_ssl form;
     cc_list := cc_list form; updated_at := updated_at form |}.

(** [{ ...form, port: v }]. *)
Definition with_port (v : JsNumber) (form : SMTPSettings) : SMTPSettings :=
  {| host := host form; port := v;
     smtp_username := smtp_username form; password := password form;
     from_email := from_email form; from_name := from_name form;
     use_tls := use_tls form; use_ssl := use_ssl form;
     cc_list := cc_list form; updated_at := updated_at form |}.

(** [loadSmtp]; [net] is the answer to its request. *)
Definition loadSmtp (net : FetchResult SmtpPayload) : Handler unit :=
  closure <- snapshot ;;
  if negb (is_admin closure) then ret tt
  else
    setSmtpLoading true ;;
    setSmtpMessage "" ;;
    setError "" ;;
    try_finally
      (try_catch
         (response <- fetch {| method := GET; url := SmtpSettingsUrl;
                               body := NoBody |} net ;;
          if handleUnauthorized (status response) then ret tt
          else if negb (ok (status response)) then
            throw (Js.new_Error
                     (failure_message (error_json response)
                                      "Failed to load SMTP settings"))
          else
            payload <- read_json response ;;
            setSmtpForm (fun current =>
                           with_password "" (assign_payload current payload)))
         (fun err =>
            setError (Js.or (Js.message err) "Failed to load SMTP settings")))
      (setSmtpLoading false).

(** [saveSmtpSettings]; the body is the form of the render the handler
    belongs to. *)
Definition saveSmtpSettings (net : FetchResult SmtpPayload) : Handler unit :=
  closure <- snapshot ;;
  setSmtpSaving true ;;
  setSmtpMessage "" ;;
  try_finally
    (try_catch
       (response <- fetch {| method := PUT; url := SmtpSettingsUrl;
                             body := SmtpBody (smtpForm (smtp closure)) |}
                          net ;;
        if handleUnauthorized (status response) then ret tt
        else if negb (ok (status response)) then
          throw (Js.new_Error
                   (failure_message (error_json response)
                                    "Failed to save SMTP settings"))
        else
          payload <- read_json response ;;
          setSmtpForm (fun current =>
                         with_password "" (assign_payload current payload)) ;;
          setSmtpMessage "SMTP settings saved.")
       (fun err =>
          setSmtpMessage (Js.or (Js.message err) "Failed to save SMTP settings")))
    (setSmtpSaving false).

(** The operand of [Number(...)] in the port field: a string or a
    number. *)
Inductive StringOrNumber :=
| AString (s : string)
| ANumber (n : JsNumber).

(** [value || n]. *)
Definition or_number (value : string) (n : JsNumber) : StringOrNumber :=
  if Js.truthy value then AString value else ANumber n.

(** [Number(v)]. *)
Definition Number (v : StringOrNumber) : JsNumber :=
  match v with
  | AString s => StringToNumber s
  | ANumber n => n
  end.

(** The [onChange] of the SMTP port input; [value] is
    [event.target.value]. *)
Definition smtp_port_onChange (value : string) : Handler unit :=
  setSmtpForm (fun current =>
                 with_port (Number (or_number value (num 0))) current).

(** The operator leaves the text [typed] in the port field, which is an
    [<input type="number">]. *)
Definition type_smtp_port (typed : string) : Handler unit :=
  smtp_port_onChange (Dom.number_input_value typed).

(** ** Users panel *)

Record UsersPayload := { payload_users : list UserItem }.

(** [loadUsers]; [net] is the answer to its request. *)
Definition loadUsers (net : FetchResult UsersPayload) : Handler unit :=
  closure <- snapshot ;;
  if negb (is_admin closure) then ret tt
  else
    setUsersLoading true ;;
    setUsersMessage "" ;;
    try_finally
      (try_catch
         (response <- fetch {| method := GET; url := UsersUrl;
                               body := NoBody |} net ;;
          if handleUnauthorized (status response) then ret tt
          else if negb (ok (status response)) then
            throw (Js.new_Error
                     (failure_message (error_json response)
                                      "Failed to load users"))
          else
            payload <- read_json response ;;
            setUsers (payload_users payload))
         (fun err =>
            setError (Js.or (Js.message err) "Failed to load users")))
      (setUsersLoading false).

(** [createUser]; [net] answers the creation request and [reload] the
    list request of [loadUsers]. *)
Definition createUser (net : FetchResult unit)
    (reload : FetchResult UsersPayload) : Handler unit :=
  closure <- snapshot ;;
  setUsersMessage "" ;;
  try_catch
    (response <- fetch {| method := POST; url := UsersUrl;
                          body := NewUserBody (newUser (usersPanel closure)) |}
                       net ;;
     if handleUnauthorized (status response) then ret tt
     else if negb (ok (status response)) then
       throw (Js.new_Error
                (failure_message (error_json response)
                                 "Failed to create user"))
     else
       setNewUser {| new_email := ""; new_username := "";
                     new_password := ""; new_role := inspector |} ;;
       setUsersMessage "User created." ;;
       loadUsers reload)
    (fun err =>
       setUsersMessage (Js.or (Js.message err) "Failed to create user")).

(** [patchUser]: returns a boolean or throws. *)
Definition patchUser (userId : Z) (payload : UserPatch)
    (net : FetchResult unit) : Handler bool :=
  response <- fetch {| method := PATCH; url := UserUrl userId;
                       body := PatchBody payload |} net ;;
  if handleUnauthorized (status response) then ret false
  else if negb (ok (status response)) then
    throw (Js.new_Error
             (failure_message (error_json response)
                              "Failed to update user"))
  else ret true.

(** ** Notifications panel *)

Record EmployeesPayload := { payload_employees : list Employee }.

(** The updater handed to [setSelectedCardNo] when a result set
    arrives. *)
Definition select_after_search (payload : EmployeesPayload)
    (current : string) : string :=
  match payload_employees payload with
  | [] => ""
  | first :: _ =>
      if negb (Js.truthy current) then card_no first
      else if existsb (fun item => (card_no item =? current)%string)
                      (payload_employees payload)
           then current
           else card_no first
  end.

(** [URLSearchParams.prototype.set]: the first pair of that name takes
    the value and the later ones go; without one the pair is appended. *)
Fixpoint params_set (params : list (string * string)) (key value : string)
    : list (string * string) :=
  match params with
  | [] => [(key, value)]
  | (k, v) :: rest =>
      if (k =? key)%string
      then (key, value) :: filter (fun kv => negb (fst kv =? key)%string) rest
      else (k, v) :: params_set rest key value
  end.

Inductive Scope := selected | all.

(** [runNotifications(scope)]. *)
Definition runNotifications (scope : Scope)
    (net : FetchResult NotificationRunResponse) : Handler unit :=
  closure <- snapshot ;;
  setNotifyRunning true ;;
  setNotifyResult None ;;
  setNotifyMessage "" ;;
  try_finally
    (try_catch
       (let params := [("date", notifyDate (notify closure))] in
        params <-
          match scope with
          | selected =>
              if negb (Js.truthy (selectedCardNo (notify closure))) then
                throw (Js.new_Error
                         "Select an employee to send selected notification.")
              else
                ret (params_set params "card_no"
                                (selectedCardNo (notify closure)))
          | all => ret params
          end ;;
        response <- fetch {| method := POST;
                             url := NotificationsRunUrl params;
                             body := NoBody |} net ;;
        if handleUnauthorized (status response) then ret tt
        else if negb (ok (status response)) then
          throw (Js.new_Error
                   (failure_message (error_json response)
                                    "Failed to run notifications"))
        else
          payload <- read_json response ;;
          setNotifyResult (Some payload))
       (fun err =>
          setNotifyMessage (Js.or (Js.message err) "Failed to run notifications")))
    (setNotifyRunning false).

(** *** The debounced employee search

    Each run of the search effect creates an [AbortController] and a
    250ms timer.  A run is followed from its timer to the end of the
    timer's callback, which stops at each [await] that the abort signal
    can cut: the [fetch] and the two body reads. *)

Inductive Stage :=
| TimerPending (due : Z)   (* [setTimeout] armed, to fire at [due] *)
| TimerCleared             (* [clearTimeout] came first *)
| AwaitingFetch            (* at [await fetch(...)] *)
| AwaitingErrorBody        (* at [await response.json().catch(...)] *)
| AwaitingBody             (* at [await response.json()] *)
| Finished.                (* the callback has ended *)

Record SearchRun := {
  query : string;    (* [employeeSearch] of the render the run closes over *)
  aborted : bool;    (* [controller.signal.aborted] *)
  stage : Stage
}.

(** The page in time: the component, the clock in milliseconds, the run
    of the effect whose cleanup is still to come, and the runs already
    cleaned up. *)
Record Page := {
  world : World;
  now : Z;
  current : option SearchRun;
  superseded : list SearchRun
}.

(** The cleanup of one run: [controller.abort(); clearTimeout(timer)]. *)
Definition cleanup_run (run : SearchRun) : SearchRun :=
  {| query := query run;
     aborted := true;
     stage := match stage run with
              | TimerPending _ => TimerCleared
              | other => other
              end |}.

(** React runs the cleanup of the previous run, if that run returned
    one. *)
Definition cleanup (p : Page) : Page :=
  match current p with
  | Some run =>
      {| world := world p; now := now p; current := None;
         superseded := cleanup_run run :: superseded p |}
  | None => p
  end.

(** [section !== "notifications" || me?.role !== "admin"], negated. *)
Definition search_enabled (st : State) : bool :=
  match section st with
  | Notifications => is_admin st
  | _ => false
  end.

(** The body of the effect, run after a render. *)
Definition search_effect (p : Page) : Page :=
  if negb (search_enabled (ui (world p))) then p
  else
    {| world := world p; now := now p;
       current := Some {| query := employeeSearch (notify (ui (world p)));
                          aborted := false;
                          stage := TimerPending (now p + 250) |};
       superseded := superseded p |}.

(** A handler runs on the page.  The handlers run this way catch what
    they throw. *)
Definition run_handler {A : Type} (h : Handler A) (p : Page) : Page :=
  {| world := snd (h (world p)); now := now p; current := current p;
     superseded := superseded p |}.

(** A keystroke leaves the search input holding [value].  When that is
    the text it held before (an arrow key, a character typed over itself),
    either [onChange] is not called or [setEmployeeSearch] gets the value
    the state already holds, and nothing renders.  With another value the
    component renders, [employeeSearch] is a changed dependency, and the
    effect is cleaned up and run again. *)
Definition employeeSearch_onChange (value : string) (p : Page) : Page :=
  if (value =? employeeSearch (notify (ui (world p))))%string then p
  else search_effect (cleanup (run_handler (setEmployeeSearch value) p)).

(** The page is mounted: the three effects run in declaration order.
    [smtp_net] and [users_net] answer the load request of the section
    shown. *)
Definition mount (st : State) (smtp_net : FetchResult SmtpPayload)
    (users_net : FetchResult UsersPayload) : Page :=
  let p0 := {| world := {| ui := st; requests := [] |}; now := 0;
               current := None; superseded := [] |} in
  let p1 :=
    match section st with
    | Smtp => if is_admin st then run_handler (loadSmtp smtp_net) p0 else p0
    | _ => p0
    end in
  let p2 :=
    match section st with
    | Users => if is_admin st then run_handler (loadUsers users_net) p1 else p1
    | _ => p1
    end in
  search_effect p2.

(** The page is unmounted. *)
Definition unmount (p : Page) : Page := cleanup p.

(** The timer callback up to its first [await]. *)
Definition search_begin (run : SearchRun) : Handler unit :=
  setEmployeeLoading true ;;
  setNotifyMessage "" ;;
  send {| method := GET; url := EmployeesUrl (query run); body := NoBody |}.

(** The [catch] and [finally] blocks of the callback. *)
Definition search_catch (err : Js.Error) : Handler unit :=
  if negb (Js.name err =? "AbortError")%string then
    setNotifyMessage (Js.or (Js.message err) "Failed to load employees")
  else ret tt.

Definition search_finally : Handler unit := setEmployeeLoading false.

(** A stretch of the [try] block between two awaits gives the await it
    stops at, or [None] when it returns. *)
Definition Stretch : Type := Handler (option Stage).

(** After [await fetch(...)].  With the signal aborted the promise
    rejects with an [AbortError], whatever the network did. *)
Definition after_fetch (signal_aborted : bool) (answer : Js.Error + Z)
    : Stretch :=
  match (if signal_aborted then inl Js.AbortError else answer) with
  | inl e => throw e
  | inr response_status =>
      if handleUnauthorized response_status then ret None
      else if negb (ok response_status) then ret (Some AwaitingErrorBody)
      else ret (Some AwaitingBody)
  end.

(** After [await response.json().catch(() => null)].  With the signal
    aborted the read rejects, and the [catch] turns that into [null]. *)
Definition after_error_body (signal_aborted : bool)
    (answer : option ErrorPayload) : Stretch :=
  let payload := if signal_aborted then None else answer in
  throw (Js.new_Error (failure_message payload "Failed to load employees")).

(** After [await response.json()].  With the signal aborted the read
    rejects with an [AbortError]. *)
Definition after_body (signal_aborted : bool)
    (answer : JsonResult EmployeesPayload) : Stretch :=
  match (if signal_aborted then JsonFailure Js.AbortError else answer) with
  | JsonFailure e => throw e
  | JsonValue payload =>
      setEmployees (payload_employees payload) ;;
      setSelectedCardNo (select_after_search payload) ;;
      ret None
  end.

(** A stretch runs inside [try { } catch { } finally { }]: what it throws
    goes to the [catch] block, and when the callback ends the [finally]
    block runs. *)
Definition in_try (stretch : Stretch) (w : World) : Stage * World :=
  match stretch w with
  | (inl (Some next), w') => (next, w')
  | (inl None, w') => (Finished, snd (search_finally w'))
  | (inr e, w') => (Finished, snd ((search_catch e ;; search_finally) w'))
  end.

(** What the environment hands to a suspended callback. *)
Inductive Answer :=
| FetchSettles (answer : Js.Error + Z)
| ErrorBodyRead (answer : option ErrorPayload)
| BodyRead (answer : JsonResult EmployeesPayload).

(** The callback of [run] resumes with [answer]; an answer to an await
    the run is not at changes nothing. *)
Definition resume (answer : Answer) (run : SearchRun) (w : World)
    : SearchRun * World :=
  let continue stretch :=
    let (next, w') := in_try stretch w in
    ({| query := query run; aborted := aborted run; stage := next |}, w') in
  match stage run, answer with
  | AwaitingFetch, FetchSettles a => continue (after_fetch (aborted run) a)
  | AwaitingErrorBody, ErrorBodyRead a =>
      continue (after_error_body (aborted run) a)
  | AwaitingBody, BodyRead a => continue (after_body (aborted run) a)
  | _, _ => (run, w)
  end.

(** [d] milliseconds pass.  The one timer that can be pending is the
    current run's; when it falls due its callback starts. *)
Definition advance (d : Z) (p : Page) : Page :=
  let t := now p + d in
  match current p with
  | Some run =>
      match stage run with
      | TimerPending due =>
          if due <=? t then
            {| world := snd (search_begin run (world p)); now := t;
               current := Some {| query := query run; aborted := aborted run;
                                  stage := AwaitingFetch |};
               superseded := superseded p |}
          else
            {| world := world p; now := t; current := current p;
               superseded := superseded p |}
      | _ =>
          {| world := world p; now := t; current := current p;
             superseded := superseded p |}
      end
  | None =>
      {| world := world p; now := t; current := current p;
         superseded := superseded p |}
  end.

(** The current run's callback resumes. *)
Definition settle_current (answer : Answer) (p : Page) : Page :=
  match current p with
  | Some run =>
      let (run', w') := resume answer run (world p) in
      {| world := w'; now := now p; current := Some run';
         superseded := superseded p |}
  | None => p
  end.

(** The callback of the [n]-th superseded run resumes. *)
Definition settle_superseded (n : nat) (answer : Answer) (p : Page) : Page :=
  match nth_error (superseded p) n with
  | Some run =>
      let (run', w') := resume answer run (world p) in
      {| world := w'; now := now p; current := current p;
         superseded := firstn n (superseded p) ++ run' :: skipn (S n) (superseded p) |}
  | None => p
  end.

(** Keystrokes: the first comes at once, each later one [gap]
    milliseconds after the one before; each leaves its value in the
    field. *)
Fixpoint type_more (keys : list (Z * string)) (p : Page) : Page :=
  match keys with
  | [] => p
  | (gap, value) :: rest =>
      type_more rest (employeeSearch_onChange value (advance gap p))
  end.

Definition type_keys (first : string) (more : list (Z * string)) (p : Page)
    : Page :=
  type_more more (employeeSearch_onChange first p).

(** What happens on the notifications panel, as events. *)
Inductive Event :=
| Typed (value : string)                       (* the search input changes *)
| Elapsed (d : Z)                              (* time passes *)
| CurrentSettles (answer : Answer)             (* an await of the current run *)
| SupersededSettles (n : nat) (answer : Answer). (* ... of a superseded run *)

Definition step (e : Event) (p : Page) : Page :=
  match e with
  | Typed value => employeeSearch_onChange value p
  | Elapsed d => advance d p
  | CurrentSettles answer => settle_current answer p
  | SupersededSettles n answer => settle_superseded n answer p
  end.

Definition run_events (events : list Event) (p : Page) : Page :=
  fold_left (fun q e => step e q) events p.

(** The run a keystroke leaves behind once the next keystroke has
    cleaned it up before its timer fired. *)
Definition cleared (value : string) : SearchRun :=
  {| query := value; aborted := true; stage := TimerCleared |}.

(** The request of a search for [value]. *)
Definition search_request (value : string) : Request :=
  {| method := GET; url := EmployeesUrl value; body := NoBody |}.

(** Every keystroke of the sequence changes the text: its value differs
    from the one the field holds when it comes. *)
Fixpoint each_changes (held : string) (values : list string) : Prop :=
  match values with
  | [] => True
  | v :: rest => v <> held /\ each_changes v rest
  end.

(** ** The rest of the page *)

(** *** The other fields of the SMTP form

    Each input's [onChange] is
    [setSmtpForm((current) => ({ ...current, field: value }))]. *)

Definition smtp_host_onChange (value : string) : Handler unit :=
  setSmtpForm (fun current =>
    {| host := value; port := port current;
       smtp_username := smtp_username current; password := password current;
       from_email := from_email current; from_name := from_name current;
       use_tls := use_tls current; use_ssl := use_ssl current;
       cc_list := cc_list current; updated_at := updated_at current |}).

Definition smtp_username_onChange (value : string) : Handler unit :=
  setSmtpForm (fun current =>
    {| host := host current; port := port current;
       smtp_username := value; password := password current;
       from_email := from_email current; from_name := from_name current;
       use_tls := use_tls current; use_ssl := use_ssl current;
       cc_list := cc_list current; updated_at := updated_at current |}).

Definition smtp_password_onChange (value : string) : Handler unit :=
  setSmtpForm (fun current => with_password value current).

Definition smtp_from_email_onChange (value : string) : Handler unit :=
  setSmtpForm (fun current =>
    {| host := host current; port := port current;
       smtp_username := smtp_username current; password := password current;
       from_email := value; from_name := from_name current;
       use_tls := use_tls current; use_ssl := use_ssl current;
       cc_list := cc_list current; updated_at := updated_at current |}).

Definition smtp_from_name_onChange (value : string) : Handler unit :=
  setSmtpForm (fun current =>
    {| host := host current; port := port current;
       smtp_username := smtp_username current; password := password current;
       from_email := from_email current; from_name := value;
       use_tls := use_tls current; use_ssl := use_ssl current;
       cc_list := cc_list current; updated_at := updated_at current |}).

Definition smtp_cc_list_onChange (value : string) : Handler unit :=
  setSmtpForm (fun current =>
    {| host := host current; port := port current;
       smtp_username := smtp_username current; password := password current;
       from_email := from_email current; from_name := from_name current;
       use_tls := use_tls current; use_ssl := use_ssl current;
       cc_list := value; updated_at := updated_at current |}).

Definition smtp_use_tls_onChange (checked : bool) : Handler unit :=
  setSmtpForm (fun current =>
    {| host := host current; port := port current;
       smtp_username := smtp_username current; password := password current;
       from_email := from_email current; from_name := from_name current;
       use_tls := checked; use_ssl := use_ssl current;
       cc_list := cc_list current; updated_at := updated_at current |}).

Definition smtp_use_ssl_onChange (checked : bool) : Handler unit :=
  setSmtpForm (fun current =>
    {| host := host current; port := port current;
       smtp_username := smtp_username current; password := password current;
       from_email := from_email current; from_name := from_name current;
       use_tls := use_tls current; use_ssl := checked;
       cc_list := cc_list current; updated_at := updated_at current |}).

(** What the operator can do to the SMTP form, one input at a time. *)
Inductive SmtpEdit :=
| EditHost (value : string)
| EditPort (typed : string)
| EditUsername (value : string)
| EditPassword (value : string)
| EditFromEmail (value : string)
| EditFromName (value : string)
| EditCcList (value : string)
| EditUseTls (checked : bool)
| EditUseSsl (checked : bool).

Definition edit_smtp (e : SmtpEdit) : Handler unit :=
  match e with
  | EditHost value => smtp_host_onChange value
  | EditPort typed => type_smtp_port typed
  | EditUsername value => smtp_username_onChange value
  | EditPassword value => smtp_password_onChange value
  | EditFromEmail value => smtp_from_email_onChange value
  | EditFromName value => smtp_from_name_onChange value
  | EditCcList value => smtp_cc_list_onChange value
  | EditUseTls checked => smtp_use_tls_onChange checked
  | EditUseSsl checked => smtp_use_ssl_onChange checked
  end.

(** The edits happen one after the other. *)
Fixpoint edit_smtp_all (edits : list SmtpEdit) (w : World) : World :=
  match edits with
  | [] => w
  | e :: rest => edit_smtp_all rest (snd (edit_smtp e w))
  end.

(** The edit types into the password input. *)
Definition edits_password (e : SmtpEdit) : bool :=
  match e with
  | EditPassword _ => true
  | _ => false
  end.

(** *** The row actions of the users table *)

(** [changeUserRole(user, role)]; [net] answers the PATCH and [reload] the
    list request of [loadUsers]. *)
Definition changeUserRole (user : UserItem) (to_role : UserRole)
    (net : FetchResult unit) (reload : FetchResult UsersPayload)
    : Handler unit :=
  setUsersMessage "" ;;
  try_catch
    (patchUser (id user)
               {| patch_role := Some to_role; patch_is_active := None;
                  patch_password := None |} net ;;
     setUsersMessage ("Updated role for " ++ user_username user ++ ".") ;;
     loadUsers reload)
    (fun err =>
       setUsersMessage (Js.or (Js.message err) "Failed to update role")).

(** [toggleUser(user)]. *)
Definition toggleUser (user : UserItem) (net : FetchResult unit)
    (reload : FetchResult UsersPayload) : Handler unit :=
  setUsersMessage "" ;;
  try_catch
    (patchUser (id user)
               {| patch_role := None;
                  patch_is_active := Some (negb (is_active user));
                  patch_password := None |} net ;;
     setUsersMessage ("User " ++ user_username user ++ " "
                        ++ (if is_active user then "disabled" else "enabled")
                        ++ ".") ;;
     loadUsers reload)
    (fun err =>
       setUsersMessage (Js.or (Js.message err) "Failed to update user status")).

(** [resetPassword(user)]; [prompted] is what [window.prompt] returns,
    [None] for [null] (the dialog was cancelled). *)
Definition resetPassword (user : UserItem) (prompted : option string)
    (net : FetchResult unit) (reload : FetchResult UsersPayload)
    : Handler unit :=
  match prompted with
  | None => ret tt
  | Some newPassword =>
      if negb (Js.truthy newPassword) then ret tt
      else
        setUsersMessage "" ;;
        try_catch
          (patchUser (id user)
                     {| patch_role := None; patch_is_active := None;
                        patch_password := Some newPassword |} net ;;
           setUsersMessage ("Password updated for " ++ user_username user
                              ++ ".") ;;
           loadUsers reload)
          (fun err =>
             setUsersMessage (Js.or (Js.message err)
                                    "Failed to update password"))
  end.

Record ResetLinkPayload := { reset_url : string }.

(** [createResetLink(user)]. *)
Definition createResetLink (user : UserItem)
    (net : FetchResult ResetLinkPayload) : Handler unit :=
  setUsersMessage "" ;;
  try_catch
    (response <- fetch {| method := POST; url := ResetLinkUrl (id user);
                          body := NoBody |} net ;;
     if handleUnauthorized (status response) then ret tt
     else if negb (ok (status response)) then
       throw (Js.new_Error
                (failure_message (error_json response)
                                 "Failed to generate reset link"))
     else
       payload <- read_json response ;;
       setUsersMessage ("Reset link generated for " ++ user_username user
                          ++ ": " ++ reset_url payload))
    (fun err =>
       setUsersMessage (Js.or (Js.message err)
                              "Failed to generate reset link")).

(** [deleteUserRow(user)]; [confirmed] is what [window.confirm]
    returns. *)
Definition deleteUserRow (user : UserItem) (confirmed : bool)
    (net : FetchResult unit) (reload : FetchResult UsersPayload)
    : Handler unit :=
  if negb confirmed then ret tt
  else
    setUsersMessage "" ;;
    try_catch
      (response <- fetch {| method := DELETE; url := UserUrl (id user);
                            body := NoBody |} net ;;
       if handleUnauthorized (status response) then ret tt
       else if negb (ok (status response)) then
         throw (Js.new_Error
                  (failure_message (error_json response)
                                   "Failed to delete user"))
       else
         setUsersMessage ("Deleted user " ++ user_username user ++ ".") ;;
         loadUsers reload)
      (fun err =>
         setUsersMessage (Js.or (Js.message err) "Failed to delete user")).

(** The request of a PATCH with [payload] for [user]. *)
Definition patch_request (user : UserItem) (payload : UserPatch) : Request :=
  {| method := PATCH; url := UserUrl (id user); body := PatchBody payload |}.

(** *** The selection of the notifications panel *)

(** The [selectedEmployee] memo:
    [employees.find((item) => item.card_no === selectedCardNo) ?? null]. *)
Definition selectedEmployee (st : State) : option Employee :=
  find (fun item => (card_no item =? selectedCardNo (notify st))%string)
       (employees (notify st)).

(** The [onChange] of the employee select. *)
Definition selectedCardNo_onChange (value : string) : Handler unit :=
  setSelectedCardNo (fun _ => value).

(** Whether "Send for Selected Employee" is disabled:
    [notifyRunning || !selectedCardNo]. *)
Definition send_selected_disabled (st : State) : bool :=
  notifyRunning (notify st) || negb (Js.truthy (selectedCardNo (notify st))).

(** The request of a notification run with [params]. *)
Definition run_request (params : list (string * string)) : Request :=
  {| method := POST; url := NotificationsRunUrl params; body := NoBody |}.

(** *** Vocabulary of the properties *)

(** The first result of a non-empty set. *)
Definition first_card_no (payload : EmployeesPayload) : string :=
  match payload_employees payload with
  | first :: _ => card_no first
  | [] => ""
  end.

(** A request succeeds when its response is a 2xx whose body reads as
    [payload]. *)
Definition succeeds {T : Type} (net : FetchResult T) (payload : T) : Prop :=
  exists r, net = Resolves r /\ ok (status r) = true /\ json r = JsonValue payload.

(** A request fails when the network rejects it or its response is
    neither a 2xx nor a 401. *)
Definition fails {T : Type} (net : FetchResult T) : Prop :=
  match net with
  | Rejects _ => True
  | Resolves r => ok (status r) = false /\ status r <> 401
  end.

(** The message of the error a failed request ends in. *)
Definition failure_of {T : Type} (net : FetchResult T) (fallback : string)
    : string :=
  match net with
  | Rejects e => Js.message e
  | Resolves r => failure_message (error_json r) fallback
  end.

(** The requests of a creation. *)
Definition create_request (st : State) : Request :=
  {| method := POST; url := UsersUrl;
     body := NewUserBody (newUser (usersPanel st)) |}.

Definition list_request : Request :=
  {| method := GET; url := UsersUrl; body := NoBody |}.

(** Events that are no keystroke: time passing (never backwards) and
    answers arriving. *)
Definition background (e : Event) : Prop :=
  match e with
  | Typed _ => False
  | Elapsed d => 0 <= d
  | CurrentSettles _ | SupersededSettles _ _ => True
  end.

(** The time a list of events takes. *)
Fixpoint elapsed (events : list Event) : Z :=
  match events with
  | [] => 0
  | Elapsed d :: rest => d + elapsed rest
  | _ :: rest => elapsed rest
  end.

(** Keystrokes while other things happen: each comes after the background
    events listed before it. *)
Fixpoint type_among (keys : list (list Event * string)) (p : Page) : Page :=
  match keys with
  | [] => p
  | (before, value) :: rest =>
      type_among rest (employeeSearch_onChange value (run_events before p))
  end.

(** The current run waits on its timer, due at [due], for the text the
    field holds, and the requests sent so far are [sent]. *)
Definition timer_waits (p : Page) (text : string) (due : Z)
    (sent : list Request) : Prop :=
  search_enabled (ui (world p)) = true /\
  employeeSearch (notify (ui (world p))) = text /\
  current p = Some {| query := text; aborted := false;
                      stage := TimerPending due |} /\
  now p < due /\
  requests (world p) = sent.

(** The current run's timer has fired (no timer is pending) and the
    requests sent so far are [sent]. *)
Definition request_out (p : Page) (sent : list Request) : Prop :=
  (exists run, current p = Some run /\
               forall due, stage run <> TimerPending due) /\
  requests (world p) = sent.

(** The answer is a response the unauthorized handler consumes. *)
Definition consumed {T : Type} (net : FetchResult T) : Prop :=
  match net with
  | Rejects _ => False
  | Resolves r => handleUnauthorized (status r) = true
  end.

(** The handler's [try] block ends in a thrown error: the network rejects
    the request, or the response is not consumed and not a 2xx. *)
Definition thrown {T : Type} (net : FetchResult T) : Prop :=
  match net with
  | Rejects _ => True
  | Resolves r =>
      handleUnauthorized (status r) = false /\ ok (status r) = false
  end.

(** [patchUser] returns (true or false) rather than throws. *)
Definition patch_returns (net : FetchResult unit) : Prop :=
  match net with
  | Rejects _ => False
  | Resolves r =>
      handleUnauthorized (status r) = true \/ ok (status r) = true
  end.

(** The three bodies the row actions hand to [patchUser]. *)
Definition role_patch (to_role : UserRole) : UserPatch :=
  {| patch_role := Some to_role; patch_is_active := None;
     patch_password := None |}.

Definition active_patch (active : bool) : UserPatch :=
  {| patch_role := None; patch_is_active := Some active;
     patch_password := None |}.

Definition password_patch (newPassword : string) : UserPatch :=
  {| patch_role := None; patch_is_active := None;
     patch_password := Some newPassword |}.

(** A handler ended in failure: it sent [sent] and nothing after it, left
    the user list alone, and shows [message], which is not empty. *)
Definition failed_with (w w' : World) (sent : Request) (message : string)
    : Prop :=
  requests w' = (requests w ++ [sent])%list /\
  users (usersPanel (ui w')) = users (usersPanel (ui w)) /\
  usersMessage (usersPanel (ui w')) = message /\
  message <> "".

(** A run stops at its guard: it is for the selected employee and no
    employee is selected. *)
Definition run_stopped (scope : Scope) (st : State) : bool :=
  match scope with
  | selected => negb (Js.truthy (selectedCardNo (notify st)))
  | all => false
  end.

(** The password the form holds after [edits], when it held [held]: what
    was last typed into the password input, if anything was. *)
Definition typed_password (edits : list SmtpEdit) (held : string) : string :=
  fold_left (fun acc e => match e with
                          | EditPassword value => value
                          | _ => acc
                          end) edits held.

(** The parameters of a notification run as the handler builds them. *)
Definition run_params (scope : Scope) (st : State) : list (string * string) :=
  match scope with
  | all => [("date", notifyDate (notify st))]
  | selected => [("date", notifyDate (notify st));
                 ("card_no", selectedCardNo (notify st))]
  end.

(** The load request of the SMTP panel. *)
Definition smtp_load_request : Request :=
  {| method := GET; url := SmtpSettingsUrl; body := NoBody |}.

(** The answer is the one the run's callback is waiting for. *)
Definition awaited (run : SearchRun) (answer : Answer) : Prop :=
  match stage run, answer with
  | AwaitingFetch, FetchSettles _ => True
  | AwaitingErrorBody, ErrorBodyRead _ => True
  | AwaitingBody, BodyRead _ => True
  | _, _ => False
  end.

(** Superseded runs are exactly the cleaned-up ones: their signal is
    aborted and their timer is not pending; the current run's signal is
    not aborted. *)
Definition superseded_aborted (p : Page) : Prop :=
  Forall (fun run => aborted run = true /\
                     forall due, stage run <> TimerPending due)
         (superseded p) /\
  match current p with
  | Some run => aborted run = false
  | None => True
  end.

End Settings.

(** ** More of the JavaScript string library *)

Module JsString.

(** [String.prototype.startsWith(prefix)]. *)
Definition startsWith (s prefix : string) : bool := String.prefix prefix s.

(** The filler of [padStart]: [n] characters taken from [pad] repeated;
    [cur] is what is left of the repetition under way. *)
Fixpoint pad_fill (n : nat) (cur pad : string) : string :=
  match n with
  | O => EmptyString
  | S n' =>
      match cur with
      | String c t => String c (pad_fill n' t pad)
      | EmptyString =>
          match pad with
          | String c t => String c (pad_fill n' t pad)
          | EmptyString => EmptyString
          end
      end
  end.

(** [String.prototype.padStart(targetLength, padString)]. *)
Definition padStart (s : string) (targetLength : nat) (padString : string)
    : string :=
  if (targetLength <=? String.length s)%nat then s
  else (pad_fill (targetLength - String.length s) padString padString ++ s)%string.

(** [String(n)] for a natural number [n]: its decimal digits. *)
Definition String_of_number (n : N) : string :=
  NilZero.string_of_uint (N.to_uint n).

End JsString.

(** ** [todayIsoDate] *)

(** The local fields of a [Date] the function reads: [getFullYear()],
    [getMonth()] (0 to 11) and [getDate()] (1 to 31). *)
Record LocalDate := { getFullYear : N; getMonth : N; getDate : N }.

(** [todayIsoDate()], with [now] for [new Date()]. *)
Definition todayIsoDate (now : LocalDate) : string :=
  let yyyy := JsString.String_of_number (getFullYear now) in
  let mm := JsString.padStart (JsString.String_of_number (getMonth now + 1))
                              2 "0" in
  let dd := JsString.padStart (JsString.String_of_number (getDate now)) 2 "0" in
  (yyyy ++ "-" ++ mm ++ "-" ++ dd)%string.

(** A date a calendar has, in the years that take four digits. *)
Definition calendar_date (now : LocalDate) : Prop :=
  (1000 <= getFullYear now <= 9999)%N /\
  (getMonth now <= 11)%N /\
  (1 <= getDate now <= 31)%N.

(** Reading a date string back: the numbers written at the year, month
    and day positions of [YYYY-MM-DD]. *)
Fixpoint digits_to_N (acc : N) (s : string) : option N :=
  match s with
  | EmptyString => Some acc
  | String c t =>
      if Dom.is_digit c
      then digits_to_N (10 * acc + N.of_nat (nat_of_ascii c - 48)) t
      else None
  end.

Definition read_iso_date (s : string) : option (N * N * N) :=
  match digits_to_N 0 (substring 0 4 s),
        digits_to_N 0 (substring 5 2 s),
        digits_to_N 0 (substring 8 2 s) with
  | Some y, Some m, Some d =>
      if (String.length s =? 10)%nat
         && (substring 4 1 s =? "-")%string && (substring 7 1 s =? "-")%string
      then Some (y, m, d) else None
  | _, _, _ => None
  end.

(** ** [AppHeader] *)

Module AppHeader.

(** [me.role === "admin" ? "Admin" : "Inspector"]. *)
Definition roleLabel (me : AuthUser) : string :=
  if UserRole_eqb (role me) admin then "Admin" else "Inspector".

(** [subtitle ? `${title} - ${subtitle}` : title]; the prop is optional. *)
Definition headerAriaLabel (title : string) (subtitle : option string)
    : string :=
  match subtitle with
  | Some s => if Js.truthy s then (title ++ " - " ++ s)%string else title
  | None => title
  end.

Definition navClass (active : bool) : string :=
  ("rounded-lg border px-3 py-2 text-sm transition "
     ++ (if active
         then "border-zinc-400 bg-zinc-100 text-zinc-950"
         else "border-zinc-700 bg-zinc-900 text-zinc-200 hover:border-zinc-500"))%string.

(** [pathname === "/" || pathname === "/dashboard"]; [usePathname()] may
    give [null]. *)
Definition home_active (pathname : option string) : bool :=
  match pathname with
  | Some p => (p =? "/")%string || (p =? "/dashboard")%string
  | None => false
  end.

(** [Boolean(pathname?.startsWith(prefix))]. *)
Definition starts_with (pathname : option string) (prefix : string) : bool :=
  match pathname with
  | Some p => JsString.startsWith p prefix
  | None => false
  end.

Record NavLink := { href : string; label : string; className : string }.

(** The links of the header in the order they are rendered; the settings
    link is rendered for an admin only. *)
Definition links (me : AuthUser) (pathname : option string) : list NavLink :=
  ([ {| href := "/"; label := "Home";
        className := navClass (home_active pathname) |};
     {| href := "/reports"; label := "Reports";
        className := navClass (starts_with pathname "/reports") |} ]
   ++ (if UserRole_eqb (role me) admin
       then [ {| href := "/settings/smtp"; label := "Settings";
                 className := navClass (starts_with pathname "/settings") |} ]
       else []))%list.

(** The link is drawn as the active one. *)
Definition shown_active (l : NavLink) : bool :=
  (className l =? navClass true)%string.

End AppHeader.

(** ** The tabs of the settings page *)

Definition SettingsSection_eqb (a b : SettingsSection) : bool :=
  match a, b with
  | Smtp, Smtp | Users, Users | Notifications, Notifications => true
  | _, _ => false
  end.

Record SettingsTab := {
  key : SettingsSection;
  tab_href : string;
  tab_label : string
}.

Definition SETTINGS_TABS : list SettingsTab :=
  [ {| key := Smtp; tab_href := "/settings/smtp"; tab_label := "SMTP Settings" |};
    {| key := Users; tab_href := "/settings/users"; tab_label := "Users" |};
    {| key := Notifications; tab_href := "/settings/notifications";
       tab_label := "Notifications" |} ].

(** [tab.key === section]: the tab is drawn as the selected one. *)
Definition tab_selected (sec : SettingsSection) (tab : SettingsTab) : bool :=
  SettingsSection_eqb (key tab) sec.

(** ** A concrete runtime

    One handler of the session hook and one number type, to run the model
    on: numbers are integers with [None] for [NaN], and [StringToNumber]
    is given for plain digit strings only. *)

Arguments Resolves {T} r.
Arguments Rejects {T} e.
Arguments JsonValue {T} v.
Arguments JsonFailure {T} e.
Arguments status {T} r.
Arguments error_json {T} r.
Arguments json {T} r.

(** Modelled from the spec: [handleUnauthorized] of the [useAuthUser]
    hook, whose file is not among the sources.  A 401 on any call triggers
    the shared unauthorized handler instead of the call's own error path:
    a 401 is consumed, nothing else is. *)
Definition unauthorized_401 (s : Z) : bool := s =? 401.

Fixpoint digits_value (acc : Z) (s : string) : option Z :=
  match s with
  | EmptyString => Some acc
  | String c t =>
      if Dom.is_digit c
      then digits_value (10 * acc + Z.of_nat (nat_of_ascii c - 48)) t
      else None
  end.

Definition integer_of_string (s : string) : option Z := digits_value 0 s.

Definition admin_session : AuthState :=
  {| me := Some {| role := admin; username := "root" |};
     loading := false; error := "" |}.

Definition page_state (sec : SettingsSection) : @State (option Z) :=
  initial_state Some sec admin_session "2024-05-01".

Definition no_answer {T : Type} : FetchResult T :=
  Rejects (Js.new_Error "not asked").

(** The notifications panel just mounted: the first run of the effect
    waits with the empty text. *)
Definition notifications_page : @Page (option Z) :=
  mount unauthorized_401 (page_state Notifications) no_answer no_answer.

(** 250ms after the mount the request for the empty text is in flight; the
    operator then types "a". *)
Definition typed_during_request : @Page (option Z) :=
  employeeSearch_onChange "a" (advance 250 notifications_page).

Definition two_employees : EmployeesPayload :=
  {| payload_employees :=
       [ {| emp_id := EmpIdNumber 1; card_no := "1001"; employee_name := "Asha" |};
         {| emp_id := EmpIdNumber 2; card_no := "1002"; employee_name := "Binu" |} ] |}.

(** A result set in which one employee has an empty card number. *)
Definition blank_card_results : EmployeesPayload :=
  {| payload_employees :=
       [ {| emp_id := EmpIdNumber 1; card_no := "1001"; employee_name := "Asha" |};
         {| emp_id := EmpIdNumber 2; card_no := ""; employee_name := "Binu" |} ] |}.

Definition smtp_world : @World (option Z) :=
  {| ui := page_state Smtp; requests := [] |}.

Definition users_world : @World (option Z) :=
  {| ui := page_state Users; requests := [] |}.

Definition notifications_world : @World (option Z) :=
  {| ui := page_state Notifications; requests := [] |}.

(** A backend that sends a password along with the settings. *)
Definition leaky_payload : @SmtpPayload (option Z) :=
  {| p_host := Some "smtp.example.com"; p_port := Some (Some 25);
     p_username := None; p_password := Some "hunter2"; p_from_email := None;
     p_from_name := None; p_use_tls := None; p_use_ssl := None;
     p_cc_list := None; p_updated_at := Some None |}.

Definition response_200 {T : Type} (v : T) : Response T :=
  {| status := 200; error_json := None; json := JsonValue v |}.

Definition response_500 {T : Type} : Response T :=
  {| status := 500;
     error_json := Some {| payload_error := None;
                           payload_detail := Some "database is down" |};
     json := JsonFailure (Js.new_Error "not read") |}.

(** The SMTP form after the operator typed a password. *)
Definition typed_password_world : @World (option Z) :=
  snd (setSmtpForm (with_password "old-secret") smtp_world).

(** The users panel with a filled creation form. *)
Definition filled_user : NewUser :=
  {| new_email := "asha@example.com"; new_username := "asha";
     new_password := "s3cret"; new_role := admin |}.

Definition filled_form_world : @World (option Z) :=
  snd (setNewUser filled_user users_world).

Definition response_401 {T : Type} : Response T :=
  {| status := 401; error_json := None;
     json := JsonFailure (Js.new_Error "not read") |}.

Definition disable_user : UserPatch :=
  {| patch_role := None; patch_is_active := Some false; patch_password := None |}.

(** The run of the request that was in flight when "a" was typed. *)
Definition superseded_fetch : SearchRun :=
  {| query := ""; aborted := true; stage := AwaitingFetch |}.

(** A user of the list, and the users panel showing that user. *)
Definition listed_user : UserItem :=
  {| id := 7; email := "binu@example.com"; user_username := "binu";
     user_role := inspector; is_active := true;
     created_at := "2024-01-01T00:00:00Z";
     user_updated_at := "2024-01-01T00:00:00Z"; last_login_at := None |}.

Definition listed_users_world : @World (option Z) :=
  snd (setUsers [listed_user] users_world).

(** The notifications panel after a search found two employees. *)
Definition binu : Employee :=
  {| emp_id := EmpIdNumber 2; card_no := "1002"; employee_name := "Binu" |}.

Definition employees_world : @World (option Z) :=
  snd (setEmployees (payload_employees two_employees) notifications_world).

(** The fifth of January 2024. *)
Definition fifth_of_january : LocalDate :=
  {| getFullYear := 2024; getMonth := 0; getDate := 5 |}.

(** ** Properties *)

Section Properties.

Set Default Proof Using "Type".

Context {JsNumber : Type}.
Variable num : Z -> JsNumber.
Variable StringToNumber : string -> JsNumber.
Variable handleUnauthorized : Z -> bool.

Local Abbreviation State := (@State JsNumber).
Local Abbreviation World := (@World JsNumber).
Local Abbreviation Page := (@Page JsNumber).
Local Abbreviation SmtpPayload := (@SmtpPayload JsNumber).

(** Unfolds the handler combinators so that a run computes. *)
Ltac run :=
  repeat progress
    (cbv beta iota zeta delta
       [bind ret throw try_catch try_finally snapshot update fetch send
        settles read_json setError setSmtpForm setSmtpLoading setSmtpSaving
        setSmtpMessage setUsers setUsersLoading setUsersMessage setNewUser
        setNotifyRunning setNotifyResult setNotifyMessage setEmployeeSearch
        setEmployees setSelectedCardNo setEmployeeLoading with_smtp
        with_users with_notify];
     cbn [ui requests section auth smtp usersPanel notify me loading error
          smtpForm smtpLoading smtpSaving smtpMessage users usersLoading
          usersMessage newUser notifyDate notifyRunning notifyResult
          notifyMessage employeeSearch employees selectedCardNo
          employeeLoading negb fst snd]).

(** The same in a hypothesis. *)
Ltac run_in H := revert H; run; intros H.

(** *** Selection after a search *)

Lemma existsb_card_no (l : list Employee) (c : string) :
  existsb (fun item => (card_no item =? c)%string) l = true <->
  In c (map card_no l).
Proof.
  rewrite existsb_exists, in_map_iff. split.
  - intros [e [Hin Heq]]. apply String.eqb_eq in Heq. now exists e.
  - intros [e [Heq Hin]]. exists e. split; [exact Hin|]. now apply String.eqb_eq.
Qed.

(** The updater as one case analysis: the guard on an empty prior
    selection comes before the membership test. *)
Lemma select_after_search_cases (payload : EmployeesPayload) (current : string) :
  select_after_search payload current =
  match payload_employees payload with
  | [] => ""
  | first :: _ =>
      if (current =? "")%string then card_no first
      else if existsb (fun item => (card_no item =? current)%string)
                      (payload_employees payload)
           then current else card_no first
  end.
Proof.
  unfold select_after_search, Js.truthy.
  destruct (payload_employees payload); [reflexivity|].
  now destruct (current =? "")%string.
Qed.

(** C3, as amended.  When a result set arrives: a non-empty prior
    selection that occurs in the set is kept; in every other case the
    selection becomes the first result's card number when the set is not
    empty, and becomes empty when the set is empty. *)
Theorem selection_after_search (payload : EmployeesPayload) (current : string) :
  (current <> "" ->
   In current (map card_no (payload_employees payload)) ->
   select_after_search payload current = current) /\
  (~ (current <> "" /\ In current (map card_no (payload_employees payload))) ->
   payload_employees payload <> [] ->
   select_after_search payload current = first_card_no payload) /\
  (payload_employees payload = [] ->
   select_after_search payload current = "").
Proof.
  rewrite select_after_search_cases. unfold first_card_no.
  pose proof (existsb_card_no (payload_employees payload) current) as Hmem.
  destruct (payload_employees payload) as [|first rest] eqn:Hl.
  - split; [|split]; intros; try reflexivity; try contradiction.
  - destruct (String.eqb_spec current "") as [Hempty|Hsel].
    + split; [|split]; intros; try reflexivity; try contradiction; discriminate.
    + destruct (existsb _ (first :: rest)) eqn:Hex.
      * split; [|split]; intros; try reflexivity; try discriminate.
        exfalso. apply H. split; [assumption|]. now apply Hmem.
      * split; [|split]; intros; try reflexivity; try discriminate.
        apply Hmem in H0. discriminate.
Qed.

(** X4.  With real card numbers (none of them empty) in the result set,
    the empty selection occurs in no result and the rule reads without the
    guard. *)
Lemma selection_kept_when_present (payload : EmployeesPayload) (current : string) :
  Forall (fun e => card_no e <> "") (payload_employees payload) ->
  In current (map card_no (payload_employees payload)) ->
  select_after_search payload current = current.
Proof.
  intros Hcards Hin. rewrite select_after_search_cases.
  pose proof (existsb_card_no (payload_employees payload) current) as Hmem.
  destruct (payload_employees payload) as [|first rest] eqn:Hl; [contradiction|].
  destruct (String.eqb_spec current "") as [->|Hsel].
  - apply in_map_iff in Hin. destruct Hin as [e [Hc He]].
    rewrite Forall_forall in Hcards. elim (Hcards e He Hc).
  - apply Hmem in Hin. now rewrite Hin.
Qed.

(** *** The shared unauthorized handler

    The one fact about [handleUnauthorized] the properties below rely on:
    it consumes no response but a 401. *)

Hypothesis unauthorized_only_401 :
  forall s, handleUnauthorized s = true -> s = 401.

Lemma ok_range (s : Z) : ok s = true <-> 200 <= s <= 299.
Proof. unfold ok. now rewrite andb_true_iff, !Z.leb_le. Qed.

Lemma ok_passes_unauthorized (s : Z) :
  ok s = true -> handleUnauthorized s = false.
Proof using unauthorized_only_401.
  intros Hok. apply ok_range in Hok.
  destruct (handleUnauthorized s) eqn:Hu; [|reflexivity].
  apply unauthorized_only_401 in Hu. lia.
Qed.

Lemma not_401_passes_unauthorized (s : Z) :
  s <> 401 -> handleUnauthorized s = false.
Proof using unauthorized_only_401.
  intros Hs. destruct (handleUnauthorized s) eqn:Hu; [|reflexivity].
  now apply unauthorized_only_401 in Hu.
Qed.

Lemma or_fallback_shown (m fallback : string) :
  fallback <> "" -> Js.or m fallback <> "".
Proof.
  unfold Js.or, Js.truthy. intros Hf.
  destruct (String.eqb_spec m ""); simpl; assumption.
Qed.

(** *** SMTP panel *)

Lemma loadSmtp_success (w : World) (net : FetchResult SmtpPayload)
    (payload : SmtpPayload) :
  is_admin (ui w) = true -> succeeds net payload ->
  smtpForm (smtp (ui (snd (loadSmtp handleUnauthorized net w)))) =
  with_password "" (assign_payload (smtpForm (smtp (ui w))) payload).
Proof using unauthorized_only_401.
  intros Hadmin [r [-> [Hok Hjson]]].
  unfold loadSmtp. run. rewrite Hadmin. run.
  rewrite (ok_passes_unauthorized _ Hok), Hok. run.
  rewrite Hjson. reflexivity.
Qed.

Lemma saveSmtpSettings_success (w : World) (net : FetchResult SmtpPayload)
    (payload : SmtpPayload) :
  succeeds net payload ->
  smtpForm (smtp (ui (snd (saveSmtpSettings handleUnauthorized net w)))) =
  with_password "" (assign_payload (smtpForm (smtp (ui w))) payload).
Proof using unauthorized_only_401.
  intros [r [-> [Hok Hjson]]].
  unfold saveSmtpSettings. run.
  rewrite (ok_passes_unauthorized _ Hok), Hok. run.
  rewrite Hjson. reflexivity.
Qed.

(** C4.  After a successful load and after a successful save the
    password of the form buffer is the empty string, whatever the payload
    holds and whatever the password was before. *)
Theorem password_cleared_after_load_and_save (w : World)
    (net : FetchResult SmtpPayload) (payload : SmtpPayload) :
  succeeds net payload ->
  (is_admin (ui w) = true ->
   password (smtpForm (smtp (ui (snd (loadSmtp handleUnauthorized net w))))) = "") /\
  password (smtpForm (smtp (ui (snd (saveSmtpSettings handleUnauthorized net w))))) = "".
Proof using unauthorized_only_401.
  intros Hs. split.
  - intros Hadmin. now rewrite (loadSmtp_success w net payload Hadmin Hs).
  - now rewrite (saveSmtpSettings_success w net payload Hs).
Qed.

(** C6.  After a failed save (the network rejects the request, or the
    response is neither 2xx nor 401) a message is shown, namely the
    error's or else the generic one, and the form buffer is what it
    was. *)
Theorem failed_save_keeps_form (w : World) (net : FetchResult SmtpPayload) :
  fails net ->
  let w' := snd (saveSmtpSettings handleUnauthorized net w) in
  smtpMessage (smtp (ui w')) =
    Js.or (failure_of net "Failed to save SMTP settings")
          "Failed to save SMTP settings" /\
  smtpMessage (smtp (ui w')) <> "" /\
  smtpForm (smtp (ui w')) = smtpForm (smtp (ui w)).
Proof using unauthorized_only_401.
  intros Hfail.
  assert (Hshown : forall m, Js.or m "Failed to save SMTP settings" <> "")
    by (intros m; apply or_fallback_shown; discriminate).
  destruct net as [e|r]; unfold saveSmtpSettings; run.
  - simpl. repeat split. apply Hshown.
  - destruct Hfail as [Hok H401].
    rewrite (not_401_passes_unauthorized _ H401), Hok. simpl.
    repeat split. apply Hshown.
Qed.

(** The port field: what [Number(event.target.value || 0)] is on the
    value the DOM holds. *)
Lemma smtp_port_onChange_value (value : string) (w : World) :
  smtp_port_onChange num StringToNumber value w =
  (inl tt,
   {| ui := with_smtp (fun p =>
              {| smtpForm := with_port (if (value =? "")%string then num 0
                                        else StringToNumber value)
                                       (smtpForm p);
                 smtpLoading := smtpLoading p; smtpSaving := smtpSaving p;
                 smtpMessage := smtpMessage p |}) (ui w);
      requests := requests w |}).
Proof.
  unfold smtp_port_onChange, or_number, Js.truthy. run.
  now destruct (value =? "")%string.
Qed.

(** C9.  Whatever text is left in the SMTP port field, the change is
    taken: the handler returns, the port of the form buffer becomes 0
    when the text is empty or is not a number, and otherwise the number
    the text denotes; every other field of the form keeps its value, and
    no request is sent. *)
Theorem smtp_port_coerced (typed : string) (w : World) :
  let w' := snd (type_smtp_port num StringToNumber typed w) in
  let form := smtpForm (smtp (ui w)) in
  let form' := smtpForm (smtp (ui w')) in
  fst (type_smtp_port num StringToNumber typed w) = inl tt /\
  port form' = (if (typed =? "")%string
                   || negb (Dom.valid_floating_point_number typed)
                then num 0 else StringToNumber typed) /\
  host form' = host form /\
  smtp_username form' = smtp_username form /\
  password form' = password form /\
  from_email form' = from_email form /\
  from_name form' = from_name form /\
  use_tls form' = use_tls form /\
  use_ssl form' = use_ssl form /\
  cc_list form' = cc_list form /\
  updated_at form' = updated_at form /\
  requests w' = requests w.
Proof.
  cbn zeta. unfold type_smtp_port, Dom.number_input_value.
  rewrite smtp_port_onChange_value.
  cbn [fst snd ui requests]. unfold with_smtp.
  cbn [smtp smtpForm]. split; [reflexivity|].
  split; [|repeat split; reflexivity].
  unfold with_port. cbn [port].
  destruct (Dom.valid_floating_point_number typed); cbn [negb].
  - now rewrite orb_false_r.
  - now rewrite orb_true_r.
Qed.

(** *** Users panel *)

Lemma failure_message_cases (payload : option ErrorPayload) (fallback : string) :
  (forall p e, payload = Some p -> payload_error p = Some e ->
     failure_message payload fallback = e) /\
  (forall p d, payload = Some p -> payload_error p = None ->
     payload_detail p = Some d -> failure_message payload fallback = d) /\
  (payload = None -> failure_message payload fallback = fallback) /\
  (forall p, payload = Some p -> payload_error p = None ->
     payload_detail p = None -> failure_message payload fallback = fallback).
Proof.
  unfold failure_message, Js.nullish.
  repeat split; intros; subst; simpl;
    repeat match goal with H : _ = _ |- _ => rewrite H end; reflexivity.
Qed.

(** C5.  [patchUser] on a response: it returns [true] exactly on a 2xx
    status; it returns [false] on a 401 the unauthorized handler
    consumed; on any other status it throws an [Error] whose message is
    the body's [error] field, else its [detail] field, else the generic
    message. *)
Theorem patchUser_outcome (userId : Z) (payload : UserPatch)
    (r : Response unit) (w : World) :
  let outcome := fst (patchUser handleUnauthorized userId payload (Resolves r) w) in
  (outcome = inl true <-> 200 <= status r <= 299) /\
  (status r = 401 -> handleUnauthorized 401 = true -> outcome = inl false) /\
  (~ 200 <= status r <= 299 -> handleUnauthorized (status r) = false ->
   exists msg,
     outcome = inr (Js.new_Error msg) /\
     msg = failure_message (error_json r) "Failed to update user" /\
     (forall p e, error_json r = Some p -> payload_error p = Some e ->
        msg = e) /\
     (forall p d, error_json r = Some p -> payload_error p = None ->
        payload_detail p = Some d -> msg = d) /\
     ((error_json r = None \/
       exists p, error_json r = Some p /\ payload_error p = None /\
                 payload_detail p = None) ->
      msg = "Failed to update user")).
Proof using unauthorized_only_401.
  unfold patchUser. run. rewrite <- ok_range.
  destruct (handleUnauthorized (status r)) eqn:Hu.
  - pose proof (unauthorized_only_401 _ Hu) as H401.
    assert (Hok : ok (status r) = false) by (now rewrite H401).
    rewrite Hok. simpl. split; [split; discriminate|].
    split; [reflexivity|discriminate].
  - destruct (ok (status r)) eqn:Hok; simpl.
    + split; [split; reflexivity|]. split.
      * intros H401. rewrite H401 in Hu. congruence.
      * intros Hn. elim Hn. reflexivity.
    + split; [split; discriminate|]. split.
      * intros H401. rewrite H401 in Hu. congruence.
      * intros _ _. eexists. split; [reflexivity|]. split; [reflexivity|].
        destruct (failure_message_cases (error_json r) "Failed to update user")
          as [He [Hd [Hn Hnone]]].
        split; [exact He|]. split; [exact Hd|].
        intros [Hnull|[p [Hp [Hpe Hpd]]]]; [now apply Hn|now apply (Hnone p)].
Qed.

Lemma users_panel_admin (st : State) :
  render st = Panel Users -> is_admin st = true.
Proof.
  unfold render, is_admin. destruct (me (auth st)); [|discriminate].
  destruct (loading (auth st)); [discriminate|].
  destruct (UserRole_eqb (role a) admin); [reflexivity|discriminate].
Qed.

(** C8.  A creation submitted from the users panel: on a 2xx response
    the creation form is back at its defaults and the creation request is
    followed by exactly one list request; on a failed response, or when
    the network rejects the request, the form holds what was entered and
    no list request follows. *)
Theorem createUser_form (w : World) (net : FetchResult unit)
    (reload : FetchResult UsersPayload) :
  render (ui w) = Panel Users ->
  let w' := snd (createUser handleUnauthorized net reload w) in
  (forall r, net = Resolves r -> ok (status r) = true ->
     newUser (usersPanel (ui w')) = initial_newUser /\
     requests w' = (requests w ++ [create_request (ui w); list_request])%list) /\
  ((forall r, net = Resolves r -> ok (status r) = false) ->
     newUser (usersPanel (ui w')) = newUser (usersPanel (ui w)) /\
     requests w' = (requests w ++ [create_request (ui w)])%list).
Proof using unauthorized_only_401.
  intros Hview. apply users_panel_admin in Hview.
  assert (Hadmin : forall st : State,
            me (auth st) = me (auth (ui w)) -> is_admin st = true)
    by (intros st Hme; unfold is_admin in *; now rewrite Hme).
  simpl. split.
  - intros r -> Hok. unfold createUser. run.
    rewrite (ok_passes_unauthorized _ Hok), Hok. run.
    unfold loadUsers. run. rewrite Hadmin by reflexivity. run.
    destruct reload as [e|r']; run; simpl.
    + split; [reflexivity|]. now rewrite <- app_assoc.
    + destruct (handleUnauthorized (status r')); run; simpl;
        [split; [reflexivity|now rewrite <- app_assoc]|].
      destruct (ok (status r')); run; simpl;
        [|split; [reflexivity|now rewrite <- app_assoc]].
      destruct (json r'); run; simpl;
        split; try reflexivity; now rewrite <- app_assoc.
  - intros Hfail. unfold createUser. run.
    destruct net as [e|r]; run; simpl; [split; reflexivity|].
    rewrite (Hfail r eq_refl).
    destruct (handleUnauthorized (status r)); run; simpl; split; reflexivity.
Qed.

(** *** Notifications panel *)

(** C7.  "Send for Selected Employee" with an empty selection: no
    request goes out, the panel's message is the validation message, and
    the run report is empty rather than a response. *)
Theorem send_selected_needs_selection (w : World)
    (net : FetchResult NotificationRunResponse) :
  selectedCardNo (notify (ui w)) = "" ->
  let w' := snd (runNotifications handleUnauthorized selected net w) in
  requests w' = requests w /\
  notifyMessage (notify (ui w')) =
    "Select an employee to send selected notification." /\
  notifyResult (notify (ui w')) = None.
Proof.
  intros Hsel. unfold runNotifications. run. rewrite Hsel. simpl.
  repeat split.
Qed.

(** *** Debounced search *)

Lemma notifications_panel_enabled (st : State) :
  render st = Panel Notifications -> search_enabled st = true.
Proof.
  unfold render, search_enabled, is_admin.
  destruct (me (auth st)); [|discriminate].
  destruct (loading (auth st)); [discriminate|].
  destruct (UserRole_eqb (role a) admin); [|discriminate].
  simpl. intros [= ->]. reflexivity.
Qed.

(** A change of the text on an enabled page: the run before is cleaned
    up, and a fresh run waits for 250ms with the new text. *)
Lemma onChange_starts_run (value : string) (p : Page) :
  search_enabled (ui (world p)) = true ->
  value <> employeeSearch (notify (ui (world p))) ->
  let q := employeeSearch_onChange value p in
  search_enabled (ui (world q)) = true /\
  employeeSearch (notify (ui (world q))) = value /\
  current q = Some {| query := value; aborted := false;
                      stage := TimerPending (now q + 250) |} /\
  requests (world q) = requests (world p) /\
  superseded q = superseded (cleanup p).
Proof.
  intros Hen Hneq. unfold employeeSearch_onChange.
  destruct (String.eqb_spec value (employeeSearch (notify (ui (world p)))))
    as [Heq|_]; [contradiction|].
  assert (Hen' : search_enabled
                   (ui (world (cleanup (run_handler (setEmployeeSearch value) p))))
                 = true).
  { unfold cleanup, run_handler. cbn [current].
    destruct (current p); cbn [world]; run; exact Hen. }
  unfold search_effect. rewrite Hen'. cbn [negb].
  unfold cleanup, run_handler in *. cbn [current] in *.
  destruct (current p); cbn [world now current superseded] in *; run;
    repeat split; exact Hen.
Qed.

(** Less time passes than the pending timer has left: only the clock
    moves. *)
Lemma advance_before_due (d : Z) (p : Page) (run : SearchRun) (due : Z) :
  current p = Some run -> stage run = TimerPending due -> now p + d < due ->
  advance d p = {| world := world p; now := now p + d; current := current p;
                   superseded := superseded p |}.
Proof.
  intros Hc Hs Hlt. unfold advance. rewrite Hc, Hs.
  destruct (Z.leb_spec due (now p + d)); [lia|reflexivity].
Qed.

(** The pending timer falls due: the callback starts, and the request
    for the run's text goes out. *)
Lemma advance_fires (d : Z) (p : Page) (run : SearchRun) (due : Z) :
  current p = Some run -> stage run = TimerPending due -> due <= now p + d ->
  let q := advance d p in
  requests (world q) = (requests (world p) ++ [search_request (query run)])%list /\
  current q = Some {| query := query run; aborted := aborted run;
                      stage := AwaitingFetch |} /\
  superseded q = superseded p /\
  employeeLoading (notify (ui (world q))) = true.
Proof.
  intros Hc Hs Hle. unfold advance. rewrite Hc, Hs.
  destruct (Z.leb_spec due (now p + d)); [|lia].
  cbn [world current superseded]. unfold search_begin. run.
  repeat split.
Qed.

Lemma last_after_cons {A : Type} (l : list A) (a d : A) :
  last (a :: l) d = last l a.
Proof.
  revert a d. induction l as [|b l IH]; intros a d; [reflexivity|].
  change (last (a :: b :: l) d) with (last (b :: l) d).
  now rewrite !IH.
Qed.

Lemma type_more_runs (more : list (Z * string)) :
  forall (p : Page) (held : string),
    search_enabled (ui (world p)) = true ->
    employeeSearch (notify (ui (world p))) = held ->
    current p = Some {| query := held; aborted := false;
                        stage := TimerPending (now p + 250) |} ->
    Forall (fun k => 0 <= fst k < 250) more ->
    each_changes held (map snd more) ->
    let q := type_more more p in
    search_enabled (ui (world q)) = true /\
    current q = Some {| query := last (map snd more) held; aborted := false;
                        stage := TimerPending (now q + 250) |} /\
    requests (world q) = requests (world p) /\
    superseded q =
      (map cleared (rev (removelast (held :: map snd more))) ++ superseded p)%list.
Proof.
  induction more as [|[gap value] rest IH]; intros p held Hen Hheld Hcur Hgaps Hch.
  - cbn. repeat split; assumption.
  - inversion Hgaps as [|k ks Hgap Hrest]; subst k ks. cbn [fst] in Hgap.
    cbn [map snd each_changes] in Hch. destruct Hch as [Hneq Hch].
    cbn [type_more].
    pose proof (advance_before_due gap p _ _ Hcur eq_refl ltac:(lia)) as Hadv.
    set (p1 := advance gap p) in *.
    assert (Hen1 : search_enabled (ui (world p1)) = true) by (rewrite Hadv; exact Hen).
    assert (Hheld1 : employeeSearch (notify (ui (world p1))) = held)
      by (rewrite Hadv; exact Hheld).
    destruct (onChange_starts_run value p1 Hen1 ltac:(rewrite Hheld1; exact Hneq))
      as [Hen2 [Hval2 [Hcur2 [Hreq2 Hsup2]]]].
    set (p2 := employeeSearch_onChange value p1) in *.
    destruct (IH p2 value Hen2 Hval2 Hcur2 Hrest Hch) as [Hen3 [Hcur3 [Hreq3 Hsup3]]].
    split; [exact Hen3|]. split.
    + rewrite Hcur3. cbn [map snd]. now rewrite last_after_cons.
    + split.
      * rewrite Hreq3, Hreq2, Hadv. reflexivity.
      * rewrite Hsup3, Hsup2. unfold cleanup. rewrite Hadv.
        cbn [current superseded]. rewrite Hcur. cbn [superseded cleanup_run query stage].
        cbn [map snd]. change (removelast (held :: value :: map snd rest))
          with (held :: removelast (value :: map snd rest)).
        cbn [rev]. rewrite map_app, <- app_assoc. reflexivity.
Qed.

(** C1, as amended.  On the notifications panel, a sequence of keystrokes
    each of which changes the search text and comes less than 250ms after
    the one before, and then a pause of 250ms or more: exactly one request
    goes out, for the text of the last keystroke; the runs of the earlier
    keystrokes are left with their timers cleared and their signals
    aborted, and the last run waits for its response. *)
Theorem rapid_typing_one_request (p : Page) (first : string)
    (more : list (Z * string)) (pause : Z) :
  render (ui (world p)) = Panel Notifications ->
  Forall (fun k => 0 <= fst k < 250) more ->
  each_changes (employeeSearch (notify (ui (world p)))) (first :: map snd more) ->
  250 <= pause ->
  let final := last (map snd more) first in
  let q := advance pause (type_keys first more p) in
  requests (world q) = (requests (world p) ++ [search_request final])%list /\
  current q = Some {| query := final; aborted := false; stage := AwaitingFetch |} /\
  superseded q =
    (map cleared (rev (removelast (first :: map snd more)))
       ++ superseded (cleanup p))%list.
Proof.
  intros Hview Hgaps [Hneq Hch] Hpause. apply notifications_panel_enabled in Hview.
  destruct (onChange_starts_run first p Hview Hneq) as [Hen1 [Hval1 [Hcur1 [Hreq1 Hsup1]]]].
  unfold type_keys. set (p1 := employeeSearch_onChange first p) in *.
  destruct (type_more_runs more p1 first Hen1 Hval1 Hcur1 Hgaps Hch)
    as [Hen2 [Hcur2 [Hreq2 Hsup2]]].
  set (p2 := type_more more p1) in *.
  destruct (advance_fires pause p2 _ _ Hcur2 eq_refl ltac:(lia))
    as [Hreq3 [Hcur3 [Hsup3 _]]].
  cbn zeta. split; [|split].
  - rewrite Hreq3, Hreq2, Hreq1. reflexivity.
  - rewrite Hcur3. reflexivity.
  - rewrite Hsup3, Hsup2, Hsup1. reflexivity.
Qed.

Lemma resume_keeps_signal (answer : Answer) (run : SearchRun) (w : World) :
  aborted (fst (resume handleUnauthorized answer run w)) = aborted run /\
  ((forall due, stage run <> TimerPending due) ->
   forall due, stage (fst (resume handleUnauthorized answer run w)) <> TimerPending due).
Proof.
  unfold resume.
  destruct (stage run) eqn:Hs, answer; cbn [fst aborted stage];
    try (split; [reflexivity|intros H; rewrite Hs; exact H]);
    try (split; [reflexivity|intros _ due; rewrite Hs; discriminate]).
  - destruct (in_try _ w) as [next w'] eqn:Hin. cbn. split; [reflexivity|].
    intros _ due. unfold in_try, after_fetch in Hin.
    destruct (if aborted run then inl Js.AbortError else answer) as [e|st];
      [run_in Hin|].
    + injection Hin as <- _. discriminate.
    + destruct (handleUnauthorized st); [run_in Hin; injection Hin as <- _; discriminate|].
      destruct (ok st); run_in Hin; injection Hin as <- _; discriminate.
  - destruct (in_try _ w) as [next w'] eqn:Hin. cbn. split; [reflexivity|].
    intros _ due. unfold in_try, after_error_body in Hin. run_in Hin.
    injection Hin as <- _. discriminate.
  - destruct (in_try _ w) as [next w'] eqn:Hin. cbn. split; [reflexivity|].
    intros _ due. unfold in_try, after_body in Hin.
    destruct (if aborted run then JsonFailure Js.AbortError else answer);
      run_in Hin; injection Hin as <- _; discriminate.
Qed.

(** What a resumed callback leaves alone: the requests sent, and what the
    search effect reads. *)
Lemma resume_frame (answer : Answer) (run : SearchRun) (w : World) :
  let w' := snd (resume handleUnauthorized answer run w) in
  requests w' = requests w /\
  search_enabled (ui w') = search_enabled (ui w) /\
  employeeSearch (notify (ui w')) = employeeSearch (notify (ui w)).
Proof.
  unfold resume.
  destruct (stage run), answer; cbn [snd]; try (repeat split; reflexivity).
  - unfold in_try, after_fetch, search_catch, search_finally.
    destruct (if aborted run then inl Js.AbortError else answer) as [e|st].
    + run. destruct (negb (Js.name e =? "AbortError")%string); run;
        repeat split; reflexivity.
    + destruct (handleUnauthorized st); run; [repeat split; reflexivity|].
      destruct (ok st); run; repeat split; reflexivity.
  - unfold in_try, after_body, search_catch, search_finally.
    destruct (if aborted run then JsonFailure Js.AbortError else answer) as [v|e].
    + run. repeat split; reflexivity.
    + run. destruct (negb (Js.name e =? "AbortError")%string); run;
        repeat split; reflexivity.
Qed.

Lemma background_keeps_timer (e : Event) (p : Page) (text : string) (due : Z)
    (sent : list Request) :
  background e -> timer_waits p text due sent ->
  now p + elapsed [e] < due ->
  timer_waits (step handleUnauthorized e p) text due sent /\
  now (step handleUnauthorized e p) = now p + elapsed [e].
Proof.
  intros Hbg [Hen [Htext [Hcur [Hnow Hsent]]]] Hlt.
  destruct e as [value|d|answer|n answer]; cbn [background step elapsed] in *.
  - contradiction.
  - rewrite (advance_before_due d p _ due Hcur eq_refl) by lia.
    unfold timer_waits. cbn [world current now]. repeat split; try assumption; lia.
  - unfold settle_current, resume. rewrite Hcur. cbn [stage].
    destruct answer; unfold timer_waits; cbn [world current now];
      repeat split; try assumption; lia.
  - unfold settle_superseded.
    destruct (nth_error (superseded p) n) as [run|];
      [|unfold timer_waits; repeat split; try assumption; lia].
    pose proof (resume_frame answer run (world p)) as Hframe. cbn zeta in Hframe.
    destruct (resume handleUnauthorized answer run (world p)) as [run' w'].
    cbn [snd] in Hframe. destruct Hframe as [Hreq [Hen' Htext']].
    unfold timer_waits. cbn [world current now].
    repeat split; try assumption; try congruence; lia.
Qed.

Lemma background_keeps_request_out (e : Event) (p : Page) (sent : list Request) :
  background e -> request_out p sent ->
  request_out (step handleUnauthorized e p) sent.
Proof.
  intros Hbg [[run [Hcur Hstage]] Hsent].
  destruct e as [value|d|answer|n answer]; cbn [background step] in *.
  - contradiction.
  - unfold advance. rewrite Hcur.
    destruct (stage run) eqn:Hs; try (elim (Hstage due); reflexivity);
      (split; [exists run; cbn [current]; rewrite ?Hcur, ?Hs;
               split; [reflexivity|exact Hstage]
              |exact Hsent]).
  - unfold settle_current. rewrite Hcur.
    pose proof (resume_frame answer run (world p)) as Hframe. cbn zeta in Hframe.
    pose proof (resume_keeps_signal answer run (world p)) as [_ Hkeep].
    destruct (resume handleUnauthorized answer run (world p)) as [run' w'].
    cbn [fst snd] in *. destruct Hframe as [Hreq _].
    split; [exists run'; cbn [current]; split; [reflexivity|now apply Hkeep]|].
    cbn [world]. congruence.
  - unfold settle_superseded.
    destruct (nth_error (superseded p) n) as [r|];
      [|split; [exists run; split; assumption|exact Hsent]].
    pose proof (resume_frame answer r (world p)) as Hframe. cbn zeta in Hframe.
    destruct (resume handleUnauthorized answer r (world p)) as [run' w'].
    cbn [snd] in Hframe. destruct Hframe as [Hreq _].
    split; [exists run; cbn [current]; split; assumption|].
    cbn [world]. congruence.
Qed.

Lemma elapsed_nonneg (events : list Event) :
  Forall background events -> 0 <= elapsed events.
Proof.
  induction 1 as [|e rest He _ IH]; [reflexivity|].
  destruct e; cbn [elapsed background] in *; lia.
Qed.

(** Background events that end before the timer is due leave it
    waiting. *)
Lemma quiet_keeps_timer (events : list Event) :
  forall (p : Page) (text : string) (due : Z) (sent : list Request),
    Forall background events -> timer_waits p text due sent ->
    now p + elapsed events < due ->
    timer_waits (run_events handleUnauthorized events p) text due sent /\
    now (run_events handleUnauthorized events p) = now p + elapsed events.
Proof.
  induction events as [|e rest IH]; intros p text due sent Hbg Hw Hlt.
  - cbn. split; [exact Hw|lia].
  - inversion Hbg as [|e' rest' He Hrest]; subst e' rest'.
    pose proof (elapsed_nonneg rest Hrest) as Hpos.
    assert (Hsplit : elapsed (e :: rest) = elapsed [e] + elapsed rest)
      by (destruct e; cbn [elapsed]; lia).
    destruct (background_keeps_timer e p text due sent He Hw ltac:(lia))
      as [Hw1 Hnow1].
    unfold run_events in *. cbn [fold_left].
    destruct (IH _ text due sent Hrest Hw1 ltac:(lia)) as [Hw2 Hnow2].
    split; [exact Hw2|lia].
Qed.

Lemma background_keeps_request_out_all (events : list Event) :
  forall (p : Page) (sent : list Request),
    Forall background events -> request_out p sent ->
    request_out (run_events handleUnauthorized events p) sent.
Proof.
  induction events as [|e rest IH]; intros p sent Hbg Hout; [exact Hout|].
  inversion Hbg as [|e' rest' He Hrest]; subst e' rest'.
  unfold run_events in *. cbn [fold_left]. apply IH; [exact Hrest|].
  now apply background_keeps_request_out.
Qed.

(** Background events that last until the timer is due: it fires once,
    and the request for the text goes out. *)
Lemma pause_sends_request (events : list Event) :
  forall (p : Page) (text : string) (due : Z) (sent : list Request),
    Forall background events -> timer_waits p text due sent ->
    due <= now p + elapsed events ->
    request_out (run_events handleUnauthorized events p)
                (sent ++ [search_request text])%list.
Proof.
  induction events as [|e rest IH]; intros p text due sent Hbg Hw Hle.
  - destruct Hw as [_ [_ [_ [Hnow _]]]]. cbn [elapsed] in Hle. lia.
  - inversion Hbg as [|e' rest' He Hrest]; subst e' rest'.
    assert (Hsplit : elapsed (e :: rest) = elapsed [e] + elapsed rest)
      by (destruct e; cbn [elapsed]; lia).
    unfold run_events in *. cbn [fold_left].
    destruct (Z.lt_ge_cases (now p + elapsed [e]) due) as [Hlt|Hge].
    + destruct (background_keeps_timer e p text due sent He Hw Hlt) as [Hw1 Hnow1].
      apply (IH _ text due sent Hrest Hw1). lia.
    + apply background_keeps_request_out_all; [exact Hrest|].
      destruct Hw as [Hen [Htext [Hcur [Hnow Hsent]]]].
      destruct e as [value|d|answer|n answer]; cbn [elapsed background] in *;
        try lia.
      cbn [step].
      destruct (advance_fires d p _ due Hcur eq_refl ltac:(lia))
        as [Hreq [Hcur' _]].
      cbn zeta in Hreq, Hcur'. cbn [query] in Hreq.
      split; [|now rewrite Hreq, Hsent].
      eexists. split; [exact Hcur'|]. intros due'. discriminate.
Qed.

Lemma onChange_arms_timer (value : string) (p : Page) :
  search_enabled (ui (world p)) = true ->
  value <> employeeSearch (notify (ui (world p))) ->
  timer_waits (employeeSearch_onChange value p) value
              (now (employeeSearch_onChange value p) + 250)
              (requests (world p)).
Proof.
  intros Hen Hneq.
  destruct (onChange_starts_run value p Hen Hneq) as [H1 [H2 [H3 [H4 _]]]].
  unfold timer_waits. repeat split; try assumption. lia.
Qed.

Lemma type_among_arms_timer (more : list (list Event * string)) :
  forall (p : Page) (held : string) (sent : list Request),
    timer_waits p held (now p + 250) sent ->
    Forall (fun k => Forall background (fst k) /\ elapsed (fst k) < 250) more ->
    each_changes held (map snd more) ->
    let q := type_among handleUnauthorized more p in
    timer_waits q (last (map snd more) held) (now q + 250) sent.
Proof.
  induction more as [|[before value] rest IH]; intros p held sent Hw Hmore Hch.
  - exact Hw.
  - inversion Hmore as [|k ks [Hbg Hshort] Hrest]; subst k ks. cbn [fst] in *.
    cbn [map snd each_changes] in Hch. destruct Hch as [Hneq Hch].
    cbn [type_among].
    destruct (quiet_keeps_timer before p held (now p + 250) sent Hbg Hw ltac:(lia))
      as [[Hen [Htext [_ [_ Hsent]]]] _].
    set (p1 := run_events handleUnauthorized before p) in *.
    pose proof (onChange_arms_timer value p1 Hen ltac:(rewrite Htext; exact Hneq))
      as Hw2.
    rewrite Hsent in Hw2.
    cbn [map snd]. rewrite last_after_cons.
    exact (IH _ value sent Hw2 Hrest Hch).
Qed.

(** X2.  The debounce among other events.  Keystrokes that each change the
    search text and come less than 250ms after the one before, with answers
    to earlier requests arriving in between, and then 250ms or more without
    a keystroke: exactly one request goes out, for the text of the last
    keystroke. *)
Theorem rapid_typing_among_answers (p : Page) (first : string)
    (more : list (list Event * string)) (pause : list Event) :
  render (ui (world p)) = Panel Notifications ->
  Forall (fun k => Forall background (fst k) /\ elapsed (fst k) < 250) more ->
  each_changes (employeeSearch (notify (ui (world p)))) (first :: map snd more) ->
  Forall background pause ->
  250 <= elapsed pause ->
  requests (world (run_events handleUnauthorized pause
                     (type_among handleUnauthorized more
                        (employeeSearch_onChange first p)))) =
  (requests (world p) ++ [search_request (last (map snd more) first)])%list.
Proof.
  intros Hview Hmore [Hneq Hch] Hbg Hpause.
  apply notifications_panel_enabled in Hview.
  pose proof (onChange_arms_timer first p Hview Hneq) as Hw1.
  pose proof (type_among_arms_timer more _ first _ Hw1 Hmore Hch) as Hw2.
  cbn zeta in Hw2.
  destruct (pause_sends_request pause _ _ _ _ Hbg Hw2 ltac:(lia)) as [_ Hreq].
  exact Hreq.
Qed.

Lemma cleanup_superseded_aborted (p : Page) :
  superseded_aborted p -> superseded_aborted (cleanup p).
Proof.
  unfold superseded_aborted, cleanup. intros [Hsup Hcur].
  destruct (current p) as [run|] eqn:Hc; [|rewrite ?Hc; split; assumption].
  cbn [superseded current]. split; [|exact I].
  constructor; [|exact Hsup]. unfold cleanup_run. cbn [aborted stage].
  split; [reflexivity|]. intros due. destruct (stage run); discriminate.
Qed.

Lemma search_effect_superseded_aborted (p : Page) :
  current p = None -> superseded_aborted p -> superseded_aborted (search_effect p).
Proof.
  unfold superseded_aborted, search_effect. intros Hnone [Hsup Hcur].
  destruct (negb (search_enabled (ui (world p)))).
  - split; assumption.
  - cbn [superseded current aborted]. split; [exact Hsup|reflexivity].
Qed.

Lemma cleanup_current_none (p : Page) : current (cleanup p) = None.
Proof. unfold cleanup. destruct (current p) eqn:Hc; [reflexivity|exact Hc]. Qed.

Lemma step_superseded_aborted (e : Event) (p : Page) :
  superseded_aborted p -> superseded_aborted (step handleUnauthorized e p).
Proof.
  intros Hinv. destruct e as [value|d|answer|n answer]; cbn [step].
  - unfold employeeSearch_onChange.
    destruct (value =? employeeSearch (notify (ui (world p))))%string;
      [exact Hinv|].
    apply search_effect_superseded_aborted; [apply cleanup_current_none|].
    apply cleanup_superseded_aborted. exact Hinv.
  - destruct Hinv as [Hsup Hcur]. unfold advance, superseded_aborted.
    destruct (current p) as [run|] eqn:Hc;
      [|cbn [superseded current]; rewrite ?Hc; split; assumption].
    destruct (stage run);
      try (cbn [superseded current]; rewrite ?Hc; split; assumption).
    destruct (due <=? now p + d); cbn [superseded current aborted];
      rewrite ?Hc; split; assumption.
  - destruct Hinv as [Hsup Hcur]. unfold settle_current, superseded_aborted.
    destruct (current p) as [run|] eqn:Hc; [|rewrite ?Hc; split; assumption].
    pose proof (resume_keeps_signal answer run (world p)) as [Hsig _].
    destruct (resume handleUnauthorized answer run (world p)) as [run' w'].
    cbn [superseded current fst] in *. split; [exact Hsup|]. congruence.
  - destruct Hinv as [Hsup Hcur]. unfold settle_superseded, superseded_aborted.
    destruct (nth_error (superseded p) n) as [run|] eqn:Hn; [|split; assumption].
    pose proof (resume_keeps_signal answer run (world p)) as [Hsig Hstage].
    destruct (resume handleUnauthorized answer run (world p)) as [run' w'].
    cbn [superseded current fst] in *. split; [|exact Hcur].
    rewrite Forall_forall in Hsup.
    destruct (Hsup run (nth_error_In _ _ Hn)) as [Hab Hnp].
    apply Forall_app. split.
    + apply Forall_forall. intros x Hx. apply Hsup.
      rewrite <- (firstn_skipn n (superseded p)). apply in_or_app. now left.
    + constructor; [split; [congruence|now apply Hstage]|].
      apply Forall_forall. intros x Hx. apply Hsup.
      rewrite <- (firstn_skipn (S n) (superseded p)). apply in_or_app. now right.
Qed.

Lemma mount_superseded_aborted (st : State) (smtp_net : FetchResult SmtpPayload)
    (users_net : FetchResult UsersPayload) :
  superseded_aborted (mount handleUnauthorized st smtp_net users_net).
Proof.
  unfold mount. apply search_effect_superseded_aborted.
  - destruct (section st), (is_admin st); reflexivity.
  - unfold superseded_aborted.
    destruct (section st), (is_admin st); cbn; split; auto.
Qed.

(** X1.  Whatever happens on the page from its mount on, every superseded
    run has its signal aborted and no timer pending, and the current run's
    signal is not aborted. *)
Lemma superseded_runs_are_aborted (events : list Event) (st : State)
    (smtp_net : FetchResult SmtpPayload) (users_net : FetchResult UsersPayload) :
  superseded_aborted (run_events handleUnauthorized events (mount handleUnauthorized st smtp_net users_net)).
Proof.
  unfold run_events.
  generalize (mount_superseded_aborted st smtp_net users_net).
  generalize (mount handleUnauthorized st smtp_net users_net).
  induction events as [|e rest IH]; intros p Hp; [exact Hp|].
  cbn [fold_left]. apply IH. now apply step_superseded_aborted.
Qed.

(** C2, as amended.  A search whose signal is aborted while its callback
    waits for the [fetch] or for the body of a 2xx response: whatever the
    network answers, the callback ends, no request goes out, and the
    employee list, the selection and the panel's message are what they
    were; the one thing the outcome changes is the loading flag, which
    the [finally] block sets to false. *)
Theorem aborted_search_outcome (run : SearchRun) (answer : Answer) (w : World) :
  aborted run = true ->
  stage run = AwaitingFetch \/ stage run = AwaitingBody ->
  awaited run answer ->
  let run' := fst (resume handleUnauthorized answer run w) in
  let w' := snd (resume handleUnauthorized answer run w) in
  stage run' = Finished /\
  requests w' = requests w /\
  employees (notify (ui w')) = employees (notify (ui w)) /\
  selectedCardNo (notify (ui w')) = selectedCardNo (notify (ui w)) /\
  notifyMessage (notify (ui w')) = notifyMessage (notify (ui w)) /\
  employeeLoading (notify (ui w')) = false /\
  ui w' = ui (snd (setEmployeeLoading false w)).
Proof.
  intros Hab Hstage Haw. unfold resume, awaited in *. rewrite Hab.
  destruct Hstage as [Hs|Hs]; rewrite Hs in *; destruct answer; try contradiction;
    unfold in_try, after_fetch, after_body, search_catch, search_finally;
    run; cbn; repeat split.
Qed.

(** X3.  A search whose signal is aborted while the body of a failed
    response is being read: the rejected read becomes [null] in the [catch] on the
    read itself, the generic [Error] is thrown in its place, and the panel
    shows it. *)
Lemma aborted_error_body_shows_message (run : SearchRun)
    (answer : option ErrorPayload) (w : World) :
  aborted run = true -> stage run = AwaitingErrorBody ->
  let w' := snd (resume handleUnauthorized (ErrorBodyRead answer) run w) in
  notifyMessage (notify (ui w')) = "Failed to load employees" /\
  employeeLoading (notify (ui w')) = false.
Proof.
  intros Hab Hs. unfold resume. rewrite Hab, Hs.
  unfold in_try, after_error_body, search_catch, search_finally. run. cbn.
  split; reflexivity.
Qed.

(** *** The rest of the page *)

(** Runs a handler through every way its answers can go. *)
Ltac branches :=
  repeat
    (run;
     match goal with
     | |- context [handleUnauthorized ?s] =>
         lazymatch goal with
         | H : handleUnauthorized s = _ |- _ => rewrite H
         | _ => destruct (handleUnauthorized s) eqn:?
         end
     | |- context [ok ?s] =>
         lazymatch goal with
         | H : ok s = _ |- _ => rewrite H
         | _ => destruct (ok s) eqn:?
         end
     | |- context [json ?r] =>
         lazymatch goal with
         | H : json r = _ |- _ => rewrite H
         | _ => destruct (json r) eqn:?
         end
     | |- context [is_admin ?st] =>
         lazymatch goal with
         | H : is_admin st = _ |- _ => rewrite H
         | _ => destruct (is_admin st) eqn:?
         end
     | |- context [match ?net with Rejects _ => _ | Resolves _ => _ end] =>
         is_var net; destruct net
     end).

(** Handlers do not change who is signed in. *)
Lemma is_admin_auth (st st' : State) :
  auth st' = auth st -> is_admin st' = is_admin st.
Proof. unfold is_admin. now intros ->. Qed.

(** X5.  No handler of the page lets an error escape: whatever the
    network answers, each of them returns.  ([patchUser] alone throws, and
    every caller of it catches.) *)
Theorem handlers_catch_their_errors (w : World) (user : UserItem) :
  (forall net, fst (loadSmtp handleUnauthorized net w) = inl tt) /\
  (forall net, fst (loadUsers handleUnauthorized net w) = inl tt) /\
  (forall net, fst (saveSmtpSettings handleUnauthorized net w) = inl tt) /\
  (forall net reload,
     fst (createUser handleUnauthorized net reload w) = inl tt) /\
  (forall to_role net reload,
     fst (changeUserRole handleUnauthorized user to_role net reload w) = inl tt) /\
  (forall net reload,
     fst (toggleUser handleUnauthorized user net reload w) = inl tt) /\
  (forall prompted net reload,
     fst (resetPassword handleUnauthorized user prompted net reload w) = inl tt) /\
  (forall net, fst (createResetLink handleUnauthorized user net w) = inl tt) /\
  (forall confirmed net reload,
     fst (deleteUserRow handleUnauthorized user confirmed net reload w) = inl tt) /\
  (forall scope net,
     fst (runNotifications handleUnauthorized scope net w) = inl tt).
Proof.
  repeat split; intros.
  - unfold loadSmtp. branches; reflexivity.
  - unfold loadUsers. branches; reflexivity.
  - unfold saveSmtpSettings. branches; reflexivity.
  - unfold createUser, loadUsers. branches; reflexivity.
  - unfold changeUserRole, patchUser, loadUsers. branches; reflexivity.
  - unfold toggleUser, patchUser, loadUsers. branches; reflexivity.
  - unfold resetPassword, patchUser, loadUsers.
    destruct prompted as [newPassword|]; [|reflexivity].
    destruct (Js.truthy newPassword); cbn [negb]; [|reflexivity].
    branches; reflexivity.
  - unfold createResetLink. branches; reflexivity.
  - unfold deleteUserRow, loadUsers. destruct confirmed; cbn [negb]; [|reflexivity].
    branches; reflexivity.
  - unfold runNotifications. destruct scope.
    + run. destruct (Js.truthy (selectedCardNo (notify (ui w)))); cbn [negb];
        branches; reflexivity.
    + branches; reflexivity.
Qed.

(** X6.  Every busy flag comes down: whatever the network answers, a
    load ends with its loading flag false, a save with the saving flag
    false and a notification run with the running flag false. *)
Theorem busy_flags_come_down (w : World) :
  (forall net, is_admin (ui w) = true ->
     smtpLoading (smtp (ui (snd (loadSmtp handleUnauthorized net w)))) = false) /\
  (forall net, is_admin (ui w) = true ->
     usersLoading (usersPanel (ui (snd (loadUsers handleUnauthorized net w))))
       = false) /\
  (forall net,
     smtpSaving (smtp (ui (snd (saveSmtpSettings handleUnauthorized net w))))
       = false) /\
  (forall scope net,
     notifyRunning (notify (ui (snd (runNotifications handleUnauthorized scope
                                                      net w)))) = false).
Proof.
  repeat split; intros.
  - unfold loadSmtp. branches; reflexivity.
  - unfold loadUsers. branches; reflexivity.
  - unfold saveSmtpSettings. branches; reflexivity.
  - unfold runNotifications. destruct scope.
    + run. destruct (Js.truthy (selectedCardNo (notify (ui w)))); cbn [negb];
        branches; reflexivity.
    + branches; reflexivity.
Qed.

(** X7.  A response the unauthorized handler consumes is shown nowhere on
    the panel and changes no data: the handler's message stays the empty
    one it set at its start, the form, the list and the report are not
    written, and neither a creation nor a deletion reloads the list. *)
Theorem consumed_response_is_silent (w : World) (user : UserItem) :
  (forall net, consumed handleUnauthorized net ->
     let w' := snd (saveSmtpSettings handleUnauthorized net w) in
     smtpMessage (smtp (ui w')) = "" /\
     smtpForm (smtp (ui w')) = smtpForm (smtp (ui w))) /\
  (forall net reload, consumed handleUnauthorized net ->
     let w' := snd (createUser handleUnauthorized net reload w) in
     usersMessage (usersPanel (ui w')) = "" /\
     newUser (usersPanel (ui w')) = newUser (usersPanel (ui w)) /\
     users (usersPanel (ui w')) = users (usersPanel (ui w)) /\
     requests w' = (requests w ++ [create_request (ui w)])%list) /\
  (forall net reload, consumed handleUnauthorized net ->
     let w' := snd (deleteUserRow handleUnauthorized user true net reload w) in
     usersMessage (usersPanel (ui w')) = "" /\
     users (usersPanel (ui w')) = users (usersPanel (ui w)) /\
     requests w' =
       (requests w ++ [{| method := DELETE; url := UserUrl (id user);
                          body := NoBody |}])%list) /\
  (forall net, consumed handleUnauthorized net ->
     let w' := snd (createResetLink handleUnauthorized user net w) in
     usersMessage (usersPanel (ui w')) = "") /\
  (forall scope net, consumed handleUnauthorized net ->
     (scope = all \/ selectedCardNo (notify (ui w)) <> "") ->
     let w' := snd (runNotifications handleUnauthorized scope net w) in
     notifyMessage (notify (ui w')) = "" /\
     notifyResult (notify (ui w')) = None).
Proof.
  split; [|split; [|split; [|split]]].
  - intros [e|r] Hgone; [contradiction|]. cbn [consumed] in Hgone.
    unfold saveSmtpSettings. run. rewrite Hgone. split; reflexivity.
  - intros [e|r] reload Hgone; [contradiction|]. cbn [consumed] in Hgone.
    unfold createUser. run. rewrite Hgone. repeat split.
  - intros [e|r] reload Hgone; [contradiction|]. cbn [consumed] in Hgone.
    unfold deleteUserRow. run. rewrite Hgone. repeat split.
  - intros [e|r] Hgone; [contradiction|]. cbn [consumed] in Hgone.
    unfold createResetLink. run. rewrite Hgone. reflexivity.
  - intros scope [e|r] Hgone Hscope; [contradiction|]. cbn [consumed] in Hgone.
    unfold runNotifications. run. destruct scope.
    + destruct Hscope as [Hall|Hsel]; [discriminate|].
      unfold Js.truthy.
      destruct (String.eqb_spec (selectedCardNo (notify (ui w))) "");
        [contradiction|].
      run. rewrite Hgone. split; reflexivity.
    + run. rewrite Hgone. split; reflexivity.
Qed.

(** X8.  A load that fails leaves the data on the panel as it was and
    puts a message, never an empty one, on the page: the SMTP form after a
    failed [loadSmtp], the user list after a failed [loadUsers]. *)
Theorem failed_load_keeps_data (w : World) :
  is_admin (ui w) = true ->
  (forall net : FetchResult SmtpPayload,
     thrown handleUnauthorized net ->
     let w' := snd (loadSmtp handleUnauthorized net w) in
     smtpForm (smtp (ui w')) = smtpForm (smtp (ui w)) /\
     error (auth (ui w')) =
       Js.or (failure_of net "Failed to load SMTP settings")
             "Failed to load SMTP settings" /\
     error (auth (ui w')) <> "") /\
  (forall net : FetchResult UsersPayload,
     thrown handleUnauthorized net ->
     let w' := snd (loadUsers handleUnauthorized net w) in
     users (usersPanel (ui w')) = users (usersPanel (ui w)) /\
     error (auth (ui w')) =
       Js.or (failure_of net "Failed to load users") "Failed to load users" /\
     error (auth (ui w')) <> "").
Proof.
  intros Hadmin.
  assert (Hadmin' : forall st : State, auth st = auth (ui w) -> is_admin st = true)
    by (intros st Hst; now rewrite (is_admin_auth (ui w) st Hst)).
  split; intros net Hthrown; cbn zeta.
  - unfold loadSmtp. run. rewrite Hadmin. run.
    destruct net as [e|r]; cbn [thrown failure_of] in *.
    + run. repeat split. apply or_fallback_shown. discriminate.
    + destruct Hthrown as [Hu Hok]. run. rewrite Hu, Hok. run.
      repeat split. apply or_fallback_shown. discriminate.
  - unfold loadUsers. run. rewrite Hadmin. run.
    destruct net as [e|r]; cbn [thrown failure_of] in *.
    + run. repeat split. apply or_fallback_shown. discriminate.
    + destruct Hthrown as [Hu Hok]. run. rewrite Hu, Hok. run.
      repeat split. apply or_fallback_shown. discriminate.
Qed.

(** X9.  A list load that succeeds replaces the list by the one the
    backend sent, whatever was shown before; nothing of the old list is
    kept or merged. *)
Theorem loadUsers_replaces_list (w : World) (r : Response UsersPayload)
    (payload : UsersPayload) :
  is_admin (ui w) = true ->
  handleUnauthorized (status r) = false ->
  ok (status r) = true ->
  json r = JsonValue payload ->
  let w' := snd (loadUsers handleUnauthorized (Resolves r) w) in
  users (usersPanel (ui w')) = payload_users payload /\
  requests w' = (requests w ++ [list_request])%list /\
  error (auth (ui w')) = error (auth (ui w)).
Proof.
  intros Hadmin Hu Hok Hjson. cbn zeta.
  unfold loadUsers. run. rewrite Hadmin. run. rewrite Hu, Hok. run.
  rewrite Hjson. run. repeat split.
Qed.

Lemma truthy_non_empty_string (s : string) : s <> "" -> Js.truthy s = true.
Proof.
  unfold Js.truthy. intros Hne. destruct (String.eqb_spec s ""); [contradiction|reflexivity].
Qed.

(** X10.  The row actions built on [patchUser] (role change, enable or
    disable, temporary password) do not look at the boolean it returns:
    after a PATCH that does not throw, a 2xx or a response the
    unauthorized handler consumed alike, exactly one list request follows
    the PATCH.  The PATCH carries the one field of the action, for a toggle
    the negation of the row's [is_active]. *)
Theorem patch_actions_reload_once (w : World) (user : UserItem)
    (net : FetchResult unit) (reload : FetchResult UsersPayload) :
  is_admin (ui w) = true ->
  patch_returns handleUnauthorized net ->
  (forall to_role,
     requests (snd (changeUserRole handleUnauthorized user to_role net reload w))
     = (requests w ++ [patch_request user (role_patch to_role);
                       list_request])%list) /\
  requests (snd (toggleUser handleUnauthorized user net reload w))
    = (requests w ++ [patch_request user (active_patch (negb (is_active user)));
                      list_request])%list /\
  (forall newPassword, newPassword <> "" ->
     requests (snd (resetPassword handleUnauthorized user (Some newPassword)
                                  net reload w))
     = (requests w ++ [patch_request user (password_patch newPassword);
                       list_request])%list).
Proof.
  intros Hadmin Hret. destruct net as [e|r]; [contradiction|].
  cbn [patch_returns] in Hret. unfold is_admin in Hadmin.
  assert (Hcases : handleUnauthorized (status r) = true \/
                   (handleUnauthorized (status r) = false /\ ok (status r) = true)).
  { destruct (handleUnauthorized (status r)); [now left|right].
    destruct Hret as [Hret|Hret]; [discriminate|now split]. }
  split; [|split].
  - intros to_role.
    unfold changeUserRole, patchUser, loadUsers, is_admin, patch_request,
      role_patch, list_request.
    destruct Hcases as [Hu|[Hu Hok]]; run; rewrite ?Hu, ?Hok; run;
      rewrite Hadmin; branches; cbn; rewrite <- ?app_assoc; reflexivity.
  - unfold toggleUser, patchUser, loadUsers, is_admin, patch_request,
      active_patch, list_request.
    destruct Hcases as [Hu|[Hu Hok]]; run; rewrite ?Hu, ?Hok; run;
      rewrite Hadmin; branches; cbn; rewrite <- ?app_assoc; reflexivity.
  - intros newPassword Hne.
    unfold resetPassword, patchUser, loadUsers, is_admin, patch_request,
      password_patch, list_request.
    rewrite (truthy_non_empty_string _ Hne).
    destruct Hcases as [Hu|[Hu Hok]]; run; rewrite ?Hu, ?Hok; run;
      rewrite Hadmin; branches; cbn; rewrite <- ?app_assoc; reflexivity.
Qed.

(** X11.  The success message of a mutation that reloads the list does
    not outlive the handler: [loadUsers] sets the message to the empty
    string before its request, so after a creation, a role change, a
    toggle, a password update or a deletion that went through, the users
    message is empty whatever the reload answers. *)
Theorem reload_clears_success_message (w : World) (user : UserItem)
    (reload : FetchResult UsersPayload) :
  is_admin (ui w) = true ->
  (forall r : Response unit,
     handleUnauthorized (status r) = false -> ok (status r) = true ->
     usersMessage (usersPanel (ui (snd (createUser handleUnauthorized
                                          (Resolves r) reload w)))) = "" /\
     usersMessage (usersPanel (ui (snd (deleteUserRow handleUnauthorized user
                                          true (Resolves r) reload w)))) = "") /\
  (forall net, patch_returns handleUnauthorized net ->
     (forall to_role,
        usersMessage (usersPanel (ui (snd (changeUserRole handleUnauthorized
                                             user to_role net reload w)))) = "") /\
     usersMessage (usersPanel (ui (snd (toggleUser handleUnauthorized user net
                                          reload w)))) = "" /\
     (forall newPassword, newPassword <> "" ->
        usersMessage (usersPanel (ui (snd (resetPassword handleUnauthorized
                                             user (Some newPassword) net
                                             reload w)))) = "")).
Proof.
  intros Hadmin. unfold is_admin in Hadmin. split.
  - intros r Hu Hok. split.
    + unfold createUser, loadUsers, is_admin. run. rewrite Hu, Hok. run.
      rewrite Hadmin. branches; reflexivity.
    + unfold deleteUserRow, loadUsers, is_admin. run. rewrite Hu, Hok. run.
      rewrite Hadmin. branches; reflexivity.
  - intros [e|r] Hret; [contradiction|]. cbn [patch_returns] in Hret.
    assert (Hcases : handleUnauthorized (status r) = true \/
                     (handleUnauthorized (status r) = false /\
                      ok (status r) = true)).
    { destruct (handleUnauthorized (status r)); [now left|right].
      destruct Hret as [Hret|Hret]; [discriminate|now split]. }
    split; [|split].
    + intros to_role. unfold changeUserRole, patchUser, loadUsers, is_admin.
      destruct Hcases as [Hu|[Hu Hok]]; run; rewrite ?Hu, ?Hok; run;
        rewrite Hadmin; branches; reflexivity.
    + unfold toggleUser, patchUser, loadUsers, is_admin.
      destruct Hcases as [Hu|[Hu Hok]]; run; rewrite ?Hu, ?Hok; run;
        rewrite Hadmin; branches; reflexivity.
    + intros newPassword Hne.
      unfold resetPassword, patchUser, loadUsers, is_admin.
      rewrite (truthy_non_empty_string _ Hne).
      destruct Hcases as [Hu|[Hu Hok]]; run; rewrite ?Hu, ?Hok; run;
        rewrite Hadmin; branches; reflexivity.
Qed.

(** X12.  A row action whose request fails (the network rejects it, or
    the response is neither consumed nor a 2xx) sends that one request and
    no list request, leaves the list as it is, and shows a message that is
    never empty: the error's own, or the action's fallback. *)
Theorem failed_row_action_shows_message (w : World) (user : UserItem)
    (net : FetchResult unit) (reload : FetchResult UsersPayload) :
  thrown handleUnauthorized net ->
  (forall to_role,
     failed_with w
       (snd (changeUserRole handleUnauthorized user to_role net reload w))
       (patch_request user (role_patch to_role))
       (Js.or (failure_of net "Failed to update user") "Failed to update role")) /\
  failed_with w (snd (toggleUser handleUnauthorized user net reload w))
    (patch_request user (active_patch (negb (is_active user))))
    (Js.or (failure_of net "Failed to update user")
           "Failed to update user status") /\
  (forall newPassword, newPassword <> "" ->
     failed_with w
       (snd (resetPassword handleUnauthorized user (Some newPassword) net
                           reload w))
       (patch_request user (password_patch newPassword))
       (Js.or (failure_of net "Failed to update user")
              "Failed to update password")) /\
  failed_with w (snd (deleteUserRow handleUnauthorized user true net reload w))
    {| method := DELETE; url := UserUrl (id user); body := NoBody |}
    (Js.or (failure_of net "Failed to delete user") "Failed to delete user").
Proof.
  intros Hthrown.
  assert (Hshown : forall m fallback,
            fallback <> "" -> Js.or m fallback <> "")
    by (intros; now apply or_fallback_shown).
  unfold failed_with.
  destruct net as [e|r]; cbn [thrown failure_of] in *.
  - split; [|split; [|split]]; intros;
      unfold changeUserRole, toggleUser, resetPassword, deleteUserRow,
        patchUser, patch_request, role_patch, active_patch, password_patch;
      rewrite ?(truthy_non_empty_string _ H); run;
      (split; [reflexivity|split; [reflexivity|split; [reflexivity|]]]);
      apply Hshown; discriminate.
  - destruct Hthrown as [Hu Hok].
    split; [|split; [|split]]; intros;
      unfold changeUserRole, toggleUser, resetPassword, deleteUserRow,
        patchUser, patch_request, role_patch, active_patch, password_patch;
      rewrite ?(truthy_non_empty_string _ H); run; rewrite Hu, Hok; run;
      (split; [reflexivity|split; [reflexivity|split; [reflexivity|]]]);
      apply Hshown; discriminate.
Qed.

Lemma app_cons_not_same {A : Type} (l rest : list A) (x : A) :
  (l ++ x :: rest)%list <> l.
Proof.
  intros H. apply (f_equal (@List.length A)) in H.
  rewrite length_app in H. cbn in H. lia.
Qed.

(** X13.  The dialogs decide whether a request goes out.  A password
    prompt that is cancelled or left empty and a deletion that is declined
    leave the page exactly as it was, the message of an earlier action
    included; a prompt with text sends the PATCH with that password and a
    confirmed deletion sends the DELETE, whatever the network then
    answers. *)
Theorem dialogs_gate_requests (w : World) (user : UserItem)
    (net : FetchResult unit) (reload : FetchResult UsersPayload) :
  (forall prompted,
     resetPassword handleUnauthorized user prompted net reload w = (inl tt, w)
     <-> (prompted = None \/ prompted = Some "")) /\
  (forall newPassword, newPassword <> "" ->
     exists rest,
       requests (snd (resetPassword handleUnauthorized user (Some newPassword)
                                    net reload w))
       = (requests w ++ patch_request user (password_patch newPassword)
                     :: rest)%list) /\
  (forall confirmed,
     deleteUserRow handleUnauthorized user confirmed net reload w = (inl tt, w)
     <-> confirmed = false) /\
  (exists rest,
     requests (snd (deleteUserRow handleUnauthorized user true net reload w))
     = (requests w ++ {| method := DELETE; url := UserUrl (id user);
                         body := NoBody |} :: rest)%list).
Proof.
  assert (Hsent : forall newPassword, newPassword <> "" ->
            exists rest,
              requests (snd (resetPassword handleUnauthorized user
                               (Some newPassword) net reload w))
              = (requests w ++ patch_request user (password_patch newPassword)
                            :: rest)%list).
  { intros newPassword Hne.
    unfold resetPassword, patchUser, loadUsers, patch_request, password_patch.
    rewrite (truthy_non_empty_string _ Hne).
    branches; cbn [requests]; rewrite <- ?app_assoc; eexists; reflexivity. }
  assert (Hdel : exists rest,
            requests (snd (deleteUserRow handleUnauthorized user true net
                                         reload w))
            = (requests w ++ {| method := DELETE; url := UserUrl (id user);
                                body := NoBody |} :: rest)%list).
  { unfold deleteUserRow, loadUsers.
    branches; cbn [requests]; rewrite <- ?app_assoc; eexists; reflexivity. }
  split; [|split; [exact Hsent|split; [|exact Hdel]]].
  - intros prompted. split.
    + intros Hsame. destruct prompted as [newPassword|]; [|now left].
      destruct (String.eqb_spec newPassword "") as [->|Hne]; [now right|].
      destruct (Hsent newPassword Hne) as [rest Hreq].
      rewrite Hsame in Hreq. cbn [snd] in Hreq.
      symmetry in Hreq. now apply app_cons_not_same in Hreq.
    + intros [->| ->]; reflexivity.
  - intros confirmed. split.
    + intros Hsame. destruct confirmed; [|reflexivity].
      destruct Hdel as [rest Hreq]. rewrite Hsame in Hreq. cbn [snd] in Hreq.
      symmetry in Hreq. now apply app_cons_not_same in Hreq.
    + intros ->. reflexivity.
Qed.

(** X14.  Generating a reset link sends exactly one request, the POST for
    that user, and never reloads or rewrites the list or the creation
    form; when it succeeds the message ends with the link the backend
    sent. *)
Theorem createResetLink_effects (w : World) (user : UserItem)
    (net : FetchResult ResetLinkPayload) :
  let w' := snd (createResetLink handleUnauthorized user net w) in
  requests w' =
    (requests w ++ [{| method := POST; url := ResetLinkUrl (id user);
                       body := NoBody |}])%list /\
  users (usersPanel (ui w')) = users (usersPanel (ui w)) /\
  newUser (usersPanel (ui w')) = newUser (usersPanel (ui w)) /\
  (forall r payload,
     net = Resolves r -> handleUnauthorized (status r) = false ->
     ok (status r) = true -> json r = JsonValue payload ->
     usersMessage (usersPanel (ui w')) =
       ("Reset link generated for " ++ user_username user ++ ": "
          ++ reset_url payload)%string).
Proof.
  cbn zeta. unfold createResetLink. split; [|split; [|split]].
  - branches; reflexivity.
  - branches; reflexivity.
  - branches; reflexivity.
  - intros r payload -> Hu Hok Hjson. run. rewrite Hu, Hok. run.
    rewrite Hjson. reflexivity.
Qed.

(** X15.  A notification run sends one POST, with the date and, for the
    selected employee, the card number, unless it stops at its guard, when
    it sends nothing.  The report shown afterwards is never an earlier
    run's: there is one exactly when this run's request came back as a
    2xx that was not consumed and whose body could be read, and it is that
    body. *)
Theorem runNotifications_sends_and_reports (w : World) (scope : Scope)
    (net : FetchResult NotificationRunResponse) :
  requests (snd (runNotifications handleUnauthorized scope net w))
  = (requests w ++ (if run_stopped scope (ui w) then []
                    else [run_request (run_params scope (ui w))]))%list /\
  (forall payload,
     notifyResult (notify (ui (snd (runNotifications handleUnauthorized scope
                                                     net w))))
     = Some payload
     <-> run_stopped scope (ui w) = false /\
         exists r, net = Resolves r /\
                   handleUnauthorized (status r) = false /\
                   ok (status r) = true /\
                   json r = JsonValue payload).
Proof.
  unfold runNotifications, run_stopped, run_request, run_params.
  destruct scope.
  - run. destruct (Js.truthy (selectedCardNo (notify (ui w)))) eqn:Hsel.
    + cbn [negb params_set String.eqb Ascii.eqb Bool.eqb].
      split.
      * branches; reflexivity.
      * intros payload. split.
        -- branches; try discriminate.
           intros [= <-]. split; [reflexivity|]. eexists. repeat split; eassumption.
        -- intros [_ (r & -> & Hu & Hok & Hj)]. run. rewrite Hu, Hok. run.
           rewrite Hj. reflexivity.
    + run. rewrite app_nil_r. split; [reflexivity|].
      intros payload. split; [discriminate|]. intros [[=] _].
  - split.
    + branches; reflexivity.
    + intros payload. split.
      * branches; try discriminate.
        intros [= <-]. split; [reflexivity|]. eexists. repeat split; eassumption.
      * intros [_ (r & -> & Hu & Hok & Hj)]. run. rewrite Hu, Hok. run.
        rewrite Hj. reflexivity.
Qed.

(** X16.  When a search result lands, the list shown is the result and
    the selection names an employee of it: the [selectedEmployee] memo is
    empty only when the result is, and otherwise holds an employee of the
    list whose card number is the selected one. *)
Theorem search_result_selects_listed_employee (w : World)
    (payload : EmployeesPayload) :
  let st' := ui (snd (after_body false (JsonValue payload) w)) in
  employees (notify st') = payload_employees payload /\
  (selectedEmployee st' = None <-> payload_employees payload = []) /\
  (forall e, selectedEmployee st' = Some e ->
             In e (payload_employees payload) /\
             card_no e = selectedCardNo (notify st')).
Proof.
  cbn zeta. unfold after_body, selectedEmployee. run.
  split; [reflexivity|].
  set (chosen := select_after_search payload
                   (selectedCardNo (notify (ui w)))).
  assert (Hfound : forall e,
            find (fun item => (card_no item =? chosen)%string)
                 (payload_employees payload) = Some e ->
            In e (payload_employees payload) /\ card_no e = chosen).
  { intros e He. apply find_some in He as [Hin Heq].
    split; [exact Hin|]. now apply String.eqb_eq. }
  split; [|exact Hfound].
  split.
  - intros Hnone. destruct (payload_employees payload) as [|first rest] eqn:Hl;
      [reflexivity|exfalso].
    assert (Hin : In chosen (map card_no (payload_employees payload))).
    { subst chosen. rewrite select_after_search_cases, Hl.
      destruct (selectedCardNo (notify (ui w)) =? "")%string;
        [now left|].
      destruct (existsb _ (first :: rest)) eqn:Hex; [|now left].
      now apply existsb_card_no. }
    apply in_map_iff in Hin as (e & Hc & Hin). rewrite Hl in Hin.
    eapply find_none in Hnone; [|exact Hin]. cbn beta in Hnone.
    rewrite Hc, String.eqb_refl in Hnone. discriminate.
  - intros ->. reflexivity.
Qed.

(** *** The page as a whole *)

Lemma load_keeps_search_enabled (w : World) (smtp_net : FetchResult SmtpPayload)
    (users_net : FetchResult UsersPayload) :
  search_enabled (ui (snd (loadSmtp handleUnauthorized smtp_net w)))
  = search_enabled (ui w) /\
  search_enabled (ui (snd (loadUsers handleUnauthorized users_net w)))
  = search_enabled (ui w).
Proof.
  unfold search_enabled, is_admin, loadSmtp, loadUsers.
  split; branches; reflexivity.
Qed.

(** X17.  Opening the page sends the load request of the section shown
    and no other, whatever the answer is, and nothing at all for a user
    who is not an admin; the search timer is armed, 250ms ahead, on the
    notifications panel of an admin only. *)
Theorem mount_sends_section_load (st : State)
    (smtp_net : FetchResult SmtpPayload) (users_net : FetchResult UsersPayload) :
  requests (world (mount handleUnauthorized st smtp_net users_net))
  = (if is_admin st
     then match section st with
          | Smtp => [smtp_load_request]
          | Users => [list_request]
          | Notifications => []
          end
     else []) /\
  current (mount handleUnauthorized st smtp_net users_net)
  = (if search_enabled st
     then Some {| query := employeeSearch (notify st); aborted := false;
                  stage := TimerPending 250 |}
     else None).
Proof.
  pose proof (load_keeps_search_enabled {| ui := st; requests := [] |}
                smtp_net users_net) as [Hsmtp Husers].
  unfold mount, search_effect.
  destruct (section st) eqn:Hsec, (is_admin st) eqn:Hadmin;
    unfold run_handler; cbn [world now current superseded];
    rewrite ?Hsmtp, ?Husers; unfold search_enabled; cbn [ui];
    rewrite Hsec, ?Hadmin; cbn [negb world requests current now];
    (split; [|reflexivity]); try reflexivity.
  - unfold loadSmtp, smtp_load_request. run. rewrite Hadmin.
    branches; reflexivity.
  - unfold loadUsers, list_request. run. rewrite Hadmin.
    branches; reflexivity.
Qed.

Lemma step_without_search (e : Event) (p : Page) :
  search_enabled (ui (world p)) = false ->
  current p = None -> superseded p = [] ->
  search_enabled (ui (world (step handleUnauthorized e p))) = false /\
  current (step handleUnauthorized e p) = None /\
  superseded (step handleUnauthorized e p) = [] /\
  requests (world (step handleUnauthorized e p)) = requests (world p).
Proof.
  intros Hoff Hcur Hsup. destruct e as [value|d|answer|n answer]; cbn [step].
  - unfold employeeSearch_onChange.
    destruct (value =? employeeSearch (notify (ui (world p))))%string;
      [repeat split; assumption|].
    assert (Hoff' : search_enabled
                      (ui (world (cleanup (run_handler
                                             (setEmployeeSearch value) p))))
                    = false).
    { unfold cleanup, run_handler. cbn [current world]. rewrite Hcur.
      cbn [world]. revert Hoff. unfold search_enabled, is_admin. run.
      exact (fun H => H). }
    unfold search_effect. rewrite Hoff'. cbn [negb].
    unfold cleanup, run_handler in *. cbn [current world] in *.
    rewrite Hcur in *. cbn [world current superseded] in *.
    repeat split; try assumption; try reflexivity.
  - unfold advance. rewrite Hcur. cbn [world current superseded].
    repeat split; assumption.
  - unfold settle_current. rewrite Hcur. repeat split; assumption.
  - unfold settle_superseded. rewrite Hsup.
    destruct n; cbn [nth_error]; repeat split; assumption.
Qed.

(** X18.  Away from the notifications panel, and for a user who is not an
    admin, the employee search never runs: whatever is typed, however
    long one waits and whatever arrives, no timer is armed and no request
    follows the ones of the mount. *)
Theorem search_disabled_sends_nothing (st : State)
    (smtp_net : FetchResult SmtpPayload) (users_net : FetchResult UsersPayload)
    (events : list Event) :
  search_enabled st = false ->
  let p := mount handleUnauthorized st smtp_net users_net in
  current (run_events handleUnauthorized events p) = None /\
  requests (world (run_events handleUnauthorized events p))
  = requests (world p).
Proof.
  intros Hoff p.
  assert (Hp : search_enabled (ui (world p)) = false /\
               current p = None /\ superseded p = []).
  { pose proof (load_keeps_search_enabled {| ui := st; requests := [] |}
                  smtp_net users_net) as [Hsmtp Husers].
    subst p. unfold mount, search_effect.
    destruct (section st) eqn:Hsec, (is_admin st) eqn:Hadmin;
      unfold run_handler; cbn [world now current superseded];
      rewrite ?Hsmtp, ?Husers; cbn [ui]; rewrite Hoff; cbn [negb];
      cbn [world ui current superseded]; rewrite ?Hsmtp, ?Husers; cbn [ui];
      repeat split; assumption. }
  unfold run_events. revert Hp. generalize p. clear p.
  induction events as [|e rest IH]; intros p (Hoff' & Hcur & Hsup);
    cbn [fold_left]; [split; [exact Hcur|reflexivity]|].
  destruct (step_without_search e p Hoff' Hcur Hsup)
    as (Hoff1 & Hcur1 & Hsup1 & Hreq1).
  destruct (IH _ (conj Hoff1 (conj Hcur1 Hsup1))) as [Hc Hr].
  split; [exact Hc|]. now rewrite Hr.
Qed.

(** A callback whose signal is aborted changes neither the requests nor
    the list nor the selection, at whatever await it resumes. *)
Lemma resume_aborted_data (answer : Answer) (run : SearchRun) (w : World) :
  aborted run = true ->
  let w' := snd (resume handleUnauthorized answer run w) in
  requests w' = requests w /\
  employees (notify (ui w')) = employees (notify (ui w)) /\
  selectedCardNo (notify (ui w')) = selectedCardNo (notify (ui w)).
Proof.
  intros Hab. unfold resume. rewrite Hab.
  destruct (stage run), answer; cbn [snd];
    unfold in_try, after_fetch, after_error_body, after_body, search_catch,
      search_finally; run; cbn; repeat split; reflexivity.
Qed.

Lemma step_after_unmount (e : Event) (p : Page) :
  background e -> current p = None -> superseded_aborted p ->
  current (step handleUnauthorized e p) = None /\
  requests (world (step handleUnauthorized e p)) = requests (world p) /\
  employees (notify (ui (world (step handleUnauthorized e p))))
  = employees (notify (ui (world p))) /\
  selectedCardNo (notify (ui (world (step handleUnauthorized e p))))
  = selectedCardNo (notify (ui (world p))).
Proof.
  intros Hbg Hcur [Hsup _].
  destruct e as [value|d|answer|n answer]; cbn [background step] in *.
  - contradiction.
  - unfold advance. rewrite Hcur. cbn [world current].
    repeat split; try reflexivity; assumption.
  - unfold settle_current. rewrite Hcur. repeat split; try reflexivity;
      assumption.
  - unfold settle_superseded.
    destruct (nth_error (superseded p) n) as [run|] eqn:Hn;
      [|repeat split; try reflexivity; assumption].
    rewrite Forall_forall in Hsup.
    destruct (Hsup run (nth_error_In _ _ Hn)) as [Hab _].
    pose proof (resume_aborted_data answer run (world p) Hab) as Hdata.
    cbn zeta in Hdata.
    destruct (resume handleUnauthorized answer run (world p)) as [run' w'].
    cbn [snd world current] in *. split; [exact Hcur|exact Hdata].
Qed.

(** X19.  Once the page is unmounted the search is over: whenever that
    happens, no timer fires afterwards, no request goes out, and the
    callbacks still in flight change neither the employee list nor the
    selection when their answers arrive. *)
Theorem unmounted_page_is_quiet (st : State)
    (smtp_net : FetchResult SmtpPayload) (users_net : FetchResult UsersPayload)
    (before later : list Event) :
  Forall background later ->
  let p := run_events handleUnauthorized before
             (mount handleUnauthorized st smtp_net users_net) in
  let q := run_events handleUnauthorized later (unmount p) in
  current q = None /\
  requests (world q) = requests (world p) /\
  employees (notify (ui (world q))) = employees (notify (ui (world p))) /\
  selectedCardNo (notify (ui (world q)))
  = selectedCardNo (notify (ui (world p))).
Proof.
  intros Hlater p q.
  assert (Hp : superseded_aborted p).
  { subst p. unfold run_events.
    generalize (mount_superseded_aborted st smtp_net users_net).
    generalize (mount handleUnauthorized st smtp_net users_net).
    induction before as [|e rest IH]; intros p0 Hp0; [exact Hp0|].
    cbn [fold_left]. apply IH. now apply step_superseded_aborted. }
  assert (Hu : current (unmount p) = None /\ superseded_aborted (unmount p) /\
               world (unmount p) = world p).
  { unfold unmount. split; [apply cleanup_current_none|].
    split; [now apply cleanup_superseded_aborted|].
    unfold cleanup. now destruct (current p). }
  destruct Hu as (Hcur & Hinv & Hworld). rewrite <- Hworld.
  subst q. unfold run_events. revert Hcur Hinv. generalize (unmount p).
  clear Hworld Hp p.
  induction Hlater as [|e rest Hbg _ IH]; intros p Hcur Hinv; cbn [fold_left];
    [repeat split; try reflexivity; exact Hcur|].
  destruct (step_after_unmount e p Hbg Hcur Hinv) as (Hc & Hr & He & Hs).
  destruct (IH _ Hc (step_superseded_aborted e p Hinv)) as (Hc' & Hr' & He' & Hs').
  split; [exact Hc'|]. rewrite Hr', He', Hs'. repeat split; assumption.
Qed.

Lemma find_by_unique_card (l : list Employee) (e : Employee) :
  In e l -> NoDup (map card_no l) ->
  find (fun item => (card_no item =? card_no e)%string) l = Some e.
Proof.
  induction l as [|x rest IH]; intros Hin Hnd; [contradiction|].
  cbn [map] in Hnd. inversion Hnd as [|? ? Hx Hrest]; subst.
  cbn [find]. destruct Hin as [->|Hin].
  - now rewrite String.eqb_refl.
  - destruct (String.eqb_spec (card_no x) (card_no e)) as [Heq|_];
      [|now apply IH].
    exfalso. apply Hx. rewrite Heq. now apply in_map.
Qed.

(** X20.  Choosing an employee in the select and sending for the selected
    employee notifies the one chosen: when the card numbers of the list
    are distinct and the employee has one, the memo holds that employee
    and the run's request carries the date and that card number. *)
Theorem chosen_employee_is_notified (w : World) (e : Employee)
    (net : FetchResult NotificationRunResponse) :
  In e (employees (notify (ui w))) ->
  NoDup (map card_no (employees (notify (ui w)))) ->
  card_no e <> "" ->
  let chosen := snd (selectedCardNo_onChange (card_no e) w) in
  selectedEmployee (ui chosen) = Some e /\
  send_selected_disabled (ui chosen) = notifyRunning (notify (ui w)) /\
  requests (snd (runNotifications handleUnauthorized selected net chosen))
  = (requests w
       ++ [run_request [("date", notifyDate (notify (ui w)));
                        ("card_no", card_no e)]])%list.
Proof.
  intros Hin Hnd Hcard chosen. subst chosen.
  unfold selectedCardNo_onChange, selectedEmployee, send_selected_disabled,
    runNotifications, run_request.
  run. rewrite (truthy_non_empty_string _ Hcard).
  cbn [negb params_set String.eqb Ascii.eqb Bool.eqb].
  split; [now apply find_by_unique_card|]. split; [apply orb_false_r|].
  branches; reflexivity.
Qed.

(** *** The SMTP form between load and save *)

Lemma edit_smtp_effect (e : SmtpEdit) (w : World) :
  requests (snd (edit_smtp num StringToNumber e w)) = requests w /\
  password (smtpForm (smtp (ui (snd (edit_smtp num StringToNumber e w)))))
  = typed_password [e] (password (smtpForm (smtp (ui w)))).
Proof.
  destruct e; cbn [edit_smtp typed_password fold_left];
    unfold smtp_host_onChange, type_smtp_port, smtp_port_onChange,
      smtp_username_onChange, smtp_password_onChange,
      smtp_from_email_onChange, smtp_from_name_onChange,
      smtp_cc_list_onChange, smtp_use_tls_onChange, smtp_use_ssl_onChange,
      with_port, with_password;
    run; cbn [password]; split; reflexivity.
Qed.

Lemma edit_smtp_all_effect (edits : list SmtpEdit) (w : World) :
  requests (edit_smtp_all num StringToNumber edits w) = requests w /\
  password (smtpForm (smtp (ui (edit_smtp_all num StringToNumber edits w))))
  = typed_password edits (password (smtpForm (smtp (ui w)))).
Proof.
  revert w. induction edits as [|e rest IH]; intros w;
    [split; reflexivity|].
  cbn [edit_smtp_all]. destruct (IH (snd (edit_smtp num StringToNumber e w)))
    as [Hreq Hpw].
  destruct (edit_smtp_effect e w) as [Hreq1 Hpw1].
  rewrite Hreq, Hpw, Hreq1, Hpw1. split; reflexivity.
Qed.

(** X21.  The password a save submits is the one typed since the form was
    loaded, and the empty string when none was typed: after a successful
    load, whatever else is edited, the PUT that follows carries the form
    as it then stands, and its password is what the password input last
    received, or is empty. *)
Theorem typed_password_is_sent (w : World) (net save_net : FetchResult SmtpPayload)
    (payload : SmtpPayload) (edits : list SmtpEdit) :
  is_admin (ui w) = true -> succeeds net payload ->
  let loaded := snd (loadSmtp handleUnauthorized net w) in
  let edited := edit_smtp_all num StringToNumber edits loaded in
  requests (snd (saveSmtpSettings handleUnauthorized save_net edited))
  = (requests loaded
       ++ [ {| method := PUT; url := SmtpSettingsUrl;
               body := SmtpBody (smtpForm (smtp (ui edited))) |} ])%list /\
  password (smtpForm (smtp (ui edited))) = typed_password edits "".
Proof using unauthorized_only_401.
  intros Hadmin Hload loaded edited.
  destruct (edit_smtp_all_effect edits loaded) as [Hreq Hpw].
  fold edited in Hreq, Hpw. split.
  - rewrite <- Hreq. unfold saveSmtpSettings. branches; reflexivity.
  - rewrite Hpw. subst loaded.
    now rewrite (loadSmtp_success w net payload Hadmin Hload).
Qed.

End Properties.


(** ** Server configuration *)

Lemma substring_whole (s : string) : substring 0 (String.length s) s = s.
Proof. induction s as [|c t IH]; [reflexivity|]. cbn. now rewrite IH. Qed.

Lemma substring_split (s : string) :
  forall k, (k <= String.length s)%nat ->
    (substring 0 k s ++ substring k (String.length s - k) s)%string = s.
Proof.
  induction s as [|c t IH]; intros k Hk.
  - destruct k; [reflexivity|cbn in Hk; lia].
  - destruct k as [|k].
    + cbn. now rewrite substring_whole.
    + cbn in Hk. cbn. rewrite IH by lia. reflexivity.
Qed.

Lemma slice_drops_last (s : string) :
  (1 <= String.length s)%nat ->
  Js.slice s 0 (-1) = substring 0 (String.length s - 1) s.
Proof.
  intros Hlen. unfold Js.slice, Js.clamp_index. cbn [Z.ltb Z.compare].
  replace (Z.to_nat (Z.min 0 (Z.of_nat (String.length s)))) with 0%nat by lia.
  f_equal. lia.
Qed.

Lemma endsWith_slash (s : string) :
  Js.endsWith s "/" = true -> s = (Js.slice s 0 (-1) ++ "/")%string.
Proof.
  unfold Js.endsWith. cbn [String.length]. intros H.
  apply andb_true_iff in H. destruct H as [Hlen Hsub].
  apply Nat.leb_le in Hlen. apply String.eqb_eq in Hsub.
  rewrite slice_drops_last by exact Hlen. rewrite <- Hsub.
  pose proof (substring_split s (String.length s - 1) ltac:(lia)) as Hsplit.
  replace (String.length s - (String.length s - 1))%nat with 1%nat in Hsplit by lia.
  now symmetry.
Qed.

Lemma truthy_non_empty (s : string) : Js.truthy s = true <-> s <> "".
Proof.
  unfold Js.truthy. destruct (String.eqb_spec s ""); simpl; split;
    congruence.
Qed.

(** What [getBackendApiUrl] does with the first usable variable. *)
Lemma getBackendApiUrl_first (env : ServerConfig.ProcessEnv) :
  ServerConfig.getBackendApiUrl env =
  match ServerConfig.first_non_blank (ServerConfig.candidates env) with
  | Some s =>
      inl (if Js.endsWith (Js.trim s) "/" then Js.slice (Js.trim s) 0 (-1)
           else Js.trim s)
  | None => inr (Js.new_Error ServerConfig.missing_url_message)
  end.
Proof.
  unfold ServerConfig.getBackendApiUrl, ServerConfig.candidates,
    ServerConfig.first_non_blank, ServerConfig.or, ServerConfig.truthy,
    ServerConfig.optional_trim, Js.truthy.
  destruct env as [[a|] [b|] [c|]]; cbn;
    repeat match goal with
           | |- context [(Js.trim ?x =? "")%string] =>
               destruct (Js.trim x =? "")%string eqn:?; cbn
           end;
    try reflexivity; congruence.
Qed.

Lemma first_non_blank_none (vars : list (option string)) :
  ServerConfig.first_non_blank vars = None <->
  forall v, In v vars -> ~ ServerConfig.non_blank v.
Proof.
  unfold ServerConfig.non_blank. induction vars as [|[s|] rest IH]; cbn.
  - split; [intros _ v []|reflexivity].
  - destruct (String.eqb_spec (Js.trim s) "") as [Hblank|Hfull].
    + rewrite IH. split.
      * intros H v [<-|Hin]; [|now apply H].
        intros [s' [[= <-] Hne]]. contradiction.
      * intros H v Hin. apply H. now right.
    + split; [discriminate|]. intros H. exfalso.
      apply (H (Some s)); [now left|]. now exists s.
  - rewrite IH. split.
    + intros H v [<-|Hin]; [|now apply H]. intros [s' [[=] _]].
    + intros H v Hin. apply H. now right.
Qed.

Lemma first_non_blank_some (vars : list (option string)) (s : string) :
  ServerConfig.first_non_blank vars = Some s ->
  exists before after,
    vars = (before ++ Some s :: after)%list /\
    Js.trim s <> "" /\
    forall v, In v before -> ~ ServerConfig.non_blank v.
Proof.
  unfold ServerConfig.non_blank. induction vars as [|[t|] rest IH]; cbn.
  - discriminate.
  - destruct (String.eqb_spec (Js.trim t) "") as [Hblank|Hfull].
    + intros H. destruct (IH H) as [before [after [-> [Hne Hbefore]]]].
      exists (Some t :: before), after. repeat split; [exact Hne|].
      intros v [<-|Hin]; [|now apply Hbefore].
      intros [s' [[= <-] Hne']]. contradiction.
    + intros [= <-]. exists [], rest. repeat split; [exact Hfull|intros v []].
  - intros H. destruct (IH H) as [before [after [-> [Hne Hbefore]]]].
    exists (None :: before), after. repeat split; [exact Hne|].
    intros v [<-|Hin]; [|now apply Hbefore]. intros [s' [[=] _]].
Qed.

(** C10.  [getBackendApiUrl] throws exactly when none of
    [BACKEND_API_URL], [API_BASE_URL], [NEXT_PUBLIC_API_BASE_URL] is set
    to a value that is not blank once trimmed; otherwise it returns the
    first such value, in that order, trimmed and with one trailing slash
    removed when there is one. *)
Theorem getBackendApiUrl_contract (env : ServerConfig.ProcessEnv) :
  ((exists e, ServerConfig.getBackendApiUrl env = inr e) <->
   forall v, In v (ServerConfig.candidates env) -> ~ ServerConfig.non_blank v) /\
  (forall url, ServerConfig.getBackendApiUrl env = inl url ->
     exists before s after,
       ServerConfig.candidates env = (before ++ Some s :: after)%list /\
       Js.trim s <> "" /\
       (forall v, In v before -> ~ ServerConfig.non_blank v) /\
       (Js.trim s = (url ++ "/")%string \/
        (url = Js.trim s /\ Js.endsWith (Js.trim s) "/" = false))).
Proof.
  rewrite getBackendApiUrl_first. split.
  - rewrite <- first_non_blank_none.
    destruct (ServerConfig.first_non_blank (ServerConfig.candidates env)).
    + split; [intros [e He]; discriminate|discriminate].
    + split; [reflexivity|intros _; eexists; reflexivity].
  - intros url Hurl.
    destruct (ServerConfig.first_non_blank (ServerConfig.candidates env)) as [s|] eqn:Hfirst;
      [|discriminate].
    destruct (first_non_blank_some _ _ Hfirst) as [before [after [Hvars [Hne Hbefore]]]].
    exists before, s, after. repeat split; try assumption.
    destruct (Js.endsWith (Js.trim s) "/") eqn:Hends; injection Hurl as <-.
    + left. now apply endsWith_slash.
    + right. split; reflexivity.
Qed.

(** ** The header, the tabs and the date *)

Lemma shown_active_navClass (active : bool) (h l : string) :
  AppHeader.shown_active
    {| AppHeader.href := h; AppHeader.label := l;
       AppHeader.className := AppHeader.navClass active |} = active.
Proof. destruct active; reflexivity. Qed.

Lemma home_is_no_section (pathname : option string) :
  AppHeader.home_active pathname = true ->
  AppHeader.starts_with pathname "/reports" = false /\
  AppHeader.starts_with pathname "/settings" = false.
Proof.
  destruct pathname as [p|]; [|discriminate]. cbn [AppHeader.home_active].
  intros H. apply orb_prop in H as [H|H]; apply String.eqb_eq in H; subst p;
    split; reflexivity.
Qed.

Lemma reports_is_not_settings (pathname : option string) :
  AppHeader.starts_with pathname "/reports" = true ->
  AppHeader.starts_with pathname "/settings" = false.
Proof.
  destruct pathname as [p|]; [|discriminate].
  unfold AppHeader.starts_with, JsString.startsWith.
  destruct p as [|c1 [|c2 p]]; cbn [String.prefix]; try discriminate.
  - destruct (ascii_dec "/" c1); discriminate.
  - destruct (ascii_dec "/" c1); [|discriminate].
    destruct (ascii_dec "r" c2) as [<-|]; [|discriminate].
    intros _. reflexivity.
Qed.

(** X22.  The header offers the Settings link to an admin and to nobody
    else, and draws at most one of its links as the active one, whatever
    the address is (an address may also be none of the header's, and then
    no link is active). *)
Theorem header_links_one_active (me : AuthUser) (pathname : option string) :
  (In "Settings" (map AppHeader.label (AppHeader.links me pathname))
   <-> role me = admin) /\
  (length (filter AppHeader.shown_active (AppHeader.links me pathname)) <= 1)%nat /\
  (pathname = None ->
   filter AppHeader.shown_active (AppHeader.links me pathname) = []).
Proof.
  unfold AppHeader.links. split; [|split].
  - destruct (role me); cbn; split; intros H; try reflexivity;
      try discriminate; intuition discriminate.
  - pose proof (home_is_no_section pathname) as Hhome.
    pose proof (reports_is_not_settings pathname) as Hrep.
    destruct (UserRole_eqb (role me) admin); cbn [app filter];
      rewrite !shown_active_navClass;
      destruct (AppHeader.home_active pathname);
      destruct (AppHeader.starts_with pathname "/reports");
      destruct (AppHeader.starts_with pathname "/settings");
      cbn [length]; try lia;
      try (destruct (Hhome eq_refl); discriminate);
      try (specialize (Hrep eq_refl); discriminate).
  - intros ->. destruct (UserRole_eqb (role me) admin); reflexivity.
Qed.

(** X23.  Each section of the settings page has exactly one tab, drawn as
    the selected one when the section is shown, and the tab's address
    lies under the path on which the header draws Settings, and no other
    link, as active. *)
Theorem settings_tabs_cover_sections (sec : SettingsSection) :
  exists tab,
    filter (tab_selected sec) SETTINGS_TABS = [tab] /\
    key tab = sec /\
    forall me, role me = admin ->
      map AppHeader.label
          (filter AppHeader.shown_active
                  (AppHeader.links me (Some (tab_href tab))))
      = ["Settings"].
Proof.
  destruct sec; eexists; (split; [reflexivity|split; [reflexivity|]]);
    intros [r u] Hrole; cbn [role] in Hrole; subst r; reflexivity.
Qed.

Lemma in_N_range (n lo len : N) :
  (lo <= n < lo + len)%N ->
  In n (map N.of_nat (seq (N.to_nat lo) (N.to_nat len))).
Proof.
  intros H. rewrite <- (N2Nat.id n). apply in_map. apply in_seq. lia.
Qed.

Lemma four_digits (y : N) :
  (1000 <= y <= 9999)%N ->
  String.length (JsString.String_of_number y) = 4%nat /\
  digits_to_N 0 (JsString.String_of_number y) = Some y.
Proof.
  intros Hy.
  assert (H : forallb
                (fun n =>
                   (String.length (JsString.String_of_number n) =? 4)%nat
                   && match digits_to_N 0 (JsString.String_of_number n) with
                      | Some n' => (n' =? n)%N
                      | None => false
                      end)
                (map N.of_nat (seq (N.to_nat 1000) (N.to_nat 9000))) = true)
    by (vm_compute; reflexivity).
  rewrite forallb_forall in H.
  specialize (H y (in_N_range y 1000 9000 ltac:(lia))).
  apply andb_prop in H as [Hlen Hread]. apply Nat.eqb_eq in Hlen.
  split; [exact Hlen|].
  destruct (digits_to_N 0 (JsString.String_of_number y)); [|discriminate].
  apply N.eqb_eq in Hread. now subst.
Qed.

Lemma two_digits (n : N) :
  (n <= 99)%N ->
  String.length (JsString.padStart (JsString.String_of_number n) 2 "0") = 2%nat /\
  digits_to_N 0 (JsString.padStart (JsString.String_of_number n) 2 "0")
  = Some n.
Proof.
  intros Hn.
  assert (H : forallb
                (fun n =>
                   (String.length
                      (JsString.padStart (JsString.String_of_number n) 2 "0")
                    =? 2)%nat
                   && match digits_to_N 0
                              (JsString.padStart (JsString.String_of_number n)
                                                 2 "0") with
                      | Some n' => (n' =? n)%N
                      | None => false
                      end)
                (map N.of_nat (seq (N.to_nat 0) (N.to_nat 100))) = true)
    by (vm_compute; reflexivity).
  rewrite forallb_forall in H.
  specialize (H n (in_N_range n 0 100 ltac:(lia))).
  apply andb_prop in H as [Hlen Hread]. apply Nat.eqb_eq in Hlen.
  split; [exact Hlen|].
  destruct (digits_to_N 0 _); [|discriminate].
  apply N.eqb_eq in Hread. now subst.
Qed.

(** X24.  For a calendar date in a four-digit year, [todayIsoDate] gives
    the ten characters of [YYYY-MM-DD]: read back, they are the year, the
    month counted from one and the day of the local date, the last two
    padded to two digits. *)
Theorem todayIsoDate_reads_back (now : LocalDate) :
  calendar_date now ->
  String.length (todayIsoDate now) = 10%nat /\
  read_iso_date (todayIsoDate now)
  = Some (getFullYear now, (getMonth now + 1)%N, getDate now).
Proof.
  intros (Hy & Hm & Hd). unfold todayIsoDate. cbn zeta.
  destruct (four_digits (getFullYear now) Hy) as [Hly Hry].
  destruct (two_digits (getMonth now + 1) ltac:(lia)) as [Hlm Hrm].
  destruct (two_digits (getDate now) ltac:(lia)) as [Hld Hrd].
  revert Hly Hry Hlm Hrm Hld Hrd.
  generalize (JsString.String_of_number (getFullYear now)).
  generalize (JsString.padStart
                (JsString.String_of_number (getMonth now + 1)) 2 "0").
  generalize (JsString.padStart (JsString.String_of_number (getDate now)) 2 "0").
  intros dd mm yyyy Hly Hry Hlm Hrm Hld Hrd.
  destruct yyyy as [|y1 [|y2 [|y3 [|y4 [|]]]]]; try discriminate.
  destruct mm as [|m1 [|m2 [|]]]; try discriminate.
  destruct dd as [|d1 [|d2 [|]]]; try discriminate.
  split; [reflexivity|].
  unfold read_iso_date.
  cbn [String.append substring String.length Nat.eqb String.eqb Ascii.eqb
       Bool.eqb andb].
  now rewrite Hry, Hrm, Hrd.
Qed.

(** ** The concrete runtime at work *)

Lemma unauthorized_401_only (s : Z) : unauthorized_401 s = true -> s = 401.
Proof. unfold unauthorized_401. intros H. now apply Z.eqb_eq in H. Defined.

(** C1 as amended, at work: "a", "al" 120ms later, "ali" 249ms after that, then a
    pause of 250ms, on the freshly mounted notifications panel. *)
Lemma rapid_typing_witness :
  render (ui (world notifications_page)) = Panel Notifications /\
  (let q := advance 250 (type_keys "a" [(120, "al"); (249, "ali")]
                                   notifications_page) in
   requests (world q) = [search_request "ali"] /\
   current q = Some {| query := "ali"; aborted := false;
                       stage := AwaitingFetch |} /\
   superseded q = [cleared "al"; cleared "a"; cleared ""]).
Proof.
  split; [reflexivity|].
  apply (rapid_typing_one_request notifications_page "a"
           [(120, "al"); (249, "ali")] 250).
  - reflexivity.
  - repeat constructor; cbn; lia.
  - cbn. repeat split; discriminate.
  - lia.
Defined.

(** C2, the claim as written fails: the request for the empty text is in
    flight and the loading flag is up when "a" is typed; the superseded
    request then settles (here the network had a 200 for it), and the
    displayed state changes: the loading flag goes down. *)
Lemma superseded_outcome_resets_loading :
  nth_error (superseded typed_during_request) 0 = Some superseded_fetch /\
  employeeLoading (notify (ui (world typed_during_request))) = true /\
  employeeLoading
    (notify (ui (world (settle_superseded unauthorized_401 0
                          (FetchSettles (inr 200)) typed_during_request))))
    = false /\
  ui (world (settle_superseded unauthorized_401 0 (FetchSettles (inr 200))
               typed_during_request))
    <> ui (world typed_during_request).
Proof.
  repeat split. intros H.
  apply (f_equal (fun st => employeeLoading (notify st))) in H. discriminate H.
Qed.

(** C2 as amended, at work on that superseded request. *)
Lemma aborted_search_witness :
  aborted superseded_fetch = true /\
  (let w := world typed_during_request in
   let w' := snd (resume unauthorized_401 (FetchSettles (inr 200))
                         superseded_fetch w) in
   requests w' = requests w /\
   employees (notify (ui w')) = employees (notify (ui w)) /\
   selectedCardNo (notify (ui w')) = selectedCardNo (notify (ui w)) /\
   notifyMessage (notify (ui w')) = notifyMessage (notify (ui w)) /\
   employeeLoading (notify (ui w')) = false).
Proof.
  split; [reflexivity|].
  destruct (aborted_search_outcome unauthorized_401 superseded_fetch
              (FetchSettles (inr 200)) (world typed_during_request)
              eq_refl (or_introl eq_refl) I)
    as [_ [Hreq [Hemp [Hsel [Hmsg [Hload _]]]]]].
  repeat split; assumption.
Defined.

(** C3, the claim as written fails: nothing is selected, one result has
    an empty card number (so the empty selection "occurs" in the set), and
    the selection moves to the first result. *)
Lemma blank_card_selection_moves :
  In "" (map card_no (payload_employees blank_card_results)) /\
  select_after_search blank_card_results "" = "1001" /\
  select_after_search blank_card_results "" <> "".
Proof.
  split; [right; left; reflexivity|]. split; [reflexivity|discriminate].
Qed.

(** C3 as amended, at work: a selected card number that is still there is
    kept. *)
Lemma selection_after_search_witness :
  "1002" <> "" /\
  In "1002" (map card_no (payload_employees two_employees)) /\
  select_after_search two_employees "1002" = "1002".
Proof.
  assert (Hsel : "1002" <> "") by discriminate.
  assert (Hin : In "1002" (map card_no (payload_employees two_employees)))
    by (right; left; reflexivity).
  split; [exact Hsel|]. split; [exact Hin|].
  exact (proj1 (selection_after_search two_employees "1002") Hsel Hin).
Defined.

(** C4 at work: the backend sends a password along, the form held a typed
    one, and both are gone after the load and after the save. *)
Lemma password_cleared_witness :
  succeeds (Resolves (response_200 leaky_payload)) leaky_payload /\
  password (smtpForm (smtp (ui typed_password_world))) = "old-secret" /\
  password (smtpForm (smtp (ui (snd (loadSmtp unauthorized_401
      (Resolves (response_200 leaky_payload)) typed_password_world))))) = "" /\
  password (smtpForm (smtp (ui (snd (saveSmtpSettings unauthorized_401
      (Resolves (response_200 leaky_payload)) typed_password_world))))) = "".
Proof.
  assert (Hs : succeeds (Resolves (response_200 leaky_payload)) leaky_payload)
    by (exists (response_200 leaky_payload); repeat split).
  split; [exact Hs|]. split; [reflexivity|].
  destruct (password_cleared_after_load_and_save unauthorized_401
              unauthorized_401_only typed_password_world _ _ Hs) as [Hload Hsave].
  split; [exact (Hload eq_refl)|exact Hsave].
Defined.

(** C5 at work: a 200, a 401 and a 500 with a [detail] field. *)
Lemma patchUser_witness :
  fst (patchUser unauthorized_401 7 disable_user (Resolves (response_200 tt))
                 users_world) = inl true /\
  fst (patchUser unauthorized_401 7 disable_user (Resolves response_401)
                 users_world) = inl false /\
  fst (patchUser unauthorized_401 7 disable_user (Resolves response_500)
                 users_world) = inr (Js.new_Error "database is down").
Proof.
  split; [|split].
  - apply (proj1 (patchUser_outcome unauthorized_401 unauthorized_401_only
                    7 disable_user (response_200 tt) users_world)).
    cbn. lia.
  - apply (proj1 (proj2 (patchUser_outcome unauthorized_401 unauthorized_401_only
                           7 disable_user response_401 users_world)));
      reflexivity.
  - destruct (proj2 (proj2 (patchUser_outcome unauthorized_401
                              unauthorized_401_only 7 disable_user
                              response_500 users_world))
                ltac:(cbn; lia) eq_refl) as [msg [Hthrown [Hmsg _]]].
    rewrite Hthrown, Hmsg. reflexivity.
Defined.

(** C6 at work: the save of a form with a typed password meets a 500. *)
Lemma failed_save_witness :
  fails (@Resolves (@SmtpPayload (option Z)) response_500) /\
  (let w' := snd (saveSmtpSettings unauthorized_401 (Resolves response_500)
                                   typed_password_world) in
   smtpMessage (smtp (ui w')) = "database is down" /\
   smtpForm (smtp (ui w')) = smtpForm (smtp (ui typed_password_world))).
Proof.
  assert (Hf : fails (@Resolves (@SmtpPayload (option Z)) response_500))
    by (split; [reflexivity|discriminate]).
  split; [exact Hf|].
  destruct (failed_save_keeps_form unauthorized_401 unauthorized_401_only
              typed_password_world _ Hf) as [Hmsg [_ Hform]].
  split; [exact Hmsg|exact Hform].
Defined.

(** C7 at work on the freshly mounted panel, where nothing is selected. *)
Lemma send_selected_witness :
  selectedCardNo (notify (ui notifications_world)) = "" /\
  (let w' := snd (runNotifications unauthorized_401 selected no_answer
                                   notifications_world) in
   requests w' = [] /\
   notifyMessage (notify (ui w')) =
     "Select an employee to send selected notification." /\
   notifyResult (notify (ui w')) = None).
Proof.
  split; [reflexivity|].
  exact (send_selected_needs_selection unauthorized_401 notifications_world
           no_answer eq_refl).
Defined.

(** C8 at work: a filled form, created with a 200 and with a 500. *)
Lemma createUser_witness :
  render (ui filled_form_world) = Panel Users /\
  newUser (usersPanel (ui (snd (createUser unauthorized_401
      (Resolves (response_200 tt)) no_answer filled_form_world))))
    = initial_newUser /\
  requests (snd (createUser unauthorized_401 (Resolves (response_200 tt))
                            no_answer filled_form_world))
    = [create_request (ui filled_form_world); list_request] /\
  newUser (usersPanel (ui (snd (createUser unauthorized_401
      (Resolves response_500) no_answer filled_form_world))))
    = filled_user.
Proof.
  split; [reflexivity|].
  destruct (createUser_form unauthorized_401 unauthorized_401_only
              filled_form_world (Resolves (response_200 tt)) no_answer eq_refl)
    as [Hok _].
  destruct (Hok _ eq_refl eq_refl) as [Hform Hreqs].
  destruct (createUser_form unauthorized_401 unauthorized_401_only
              filled_form_world (Resolves response_500) no_answer eq_refl)
    as [_ Hfail].
  destruct (Hfail ltac:(intros r [= <-]; reflexivity)) as [Hkept _].
  split; [exact Hform|]. split; [exact Hreqs|exact Hkept].
Defined.

(** The debounce among answers, at work: the response to the mount's
    request arrives while the operator types. *)
Lemma rapid_typing_among_answers_witness :
  requests (world (run_events unauthorized_401 [Elapsed 400]
                     (type_among unauthorized_401
                        [([Elapsed 100; SupersededSettles 0 (FetchSettles (inr 200));
                           Elapsed 100], "al")]
                        (employeeSearch_onChange "a"
                           (advance 250 notifications_page)))))
  = [search_request ""; search_request "al"].
Proof.
  apply (rapid_typing_among_answers unauthorized_401
           (advance 250 notifications_page) "a"
           [([Elapsed 100; SupersededSettles 0 (FetchSettles (inr 200));
              Elapsed 100], "al")]
           [Elapsed 400]).
  - reflexivity.
  - repeat constructor; cbn; lia.
  - cbn. repeat split; discriminate.
  - repeat constructor; cbn; lia.
  - cbn. lia.
Defined.

(** The error-body race at work: a 500 has arrived for the request in
    flight, "a" is typed while its body is read, and the superseded request
    leaves its message on the panel. *)
Lemma aborted_error_body_witness :
  nth_error
    (superseded (employeeSearch_onChange "a"
                   (settle_current unauthorized_401 (FetchSettles (inr 500))
                      (advance 250 notifications_page)))) 0
    = Some {| query := ""; aborted := true; stage := AwaitingErrorBody |} /\
  notifyMessage
    (notify (ui (snd (resume unauthorized_401 (ErrorBodyRead None)
                        {| query := ""; aborted := true;
                           stage := AwaitingErrorBody |}
                        notifications_world))))
    = "Failed to load employees".
Proof.
  split; [reflexivity|].
  exact (proj1 (aborted_error_body_shows_message unauthorized_401
                  {| query := ""; aborted := true; stage := AwaitingErrorBody |}
                  None notifications_world eq_refl eq_refl)).
Defined.

(** The rule without the guard, at work on a result set of real card
    numbers. *)
Lemma selection_kept_witness :
  Forall (fun e => card_no e <> "") (payload_employees two_employees) /\
  select_after_search two_employees "1002" = "1002".
Proof.
  assert (Hcards : Forall (fun e => card_no e <> "")
                          (payload_employees two_employees))
    by (repeat constructor; discriminate).
  split; [exact Hcards|].
  apply (selection_kept_when_present two_employees "1002" Hcards).
  right; left; reflexivity.
Defined.

(** X8 at work: a load answered by a 500 keeps the typed form and shows
    the backend's message; a list request the network rejects without a
    message keeps the list and shows the generic one. *)
Lemma failed_load_witness :
  smtpForm (smtp (ui (snd (loadSmtp unauthorized_401 (Resolves response_500)
                                    typed_password_world))))
  = smtpForm (smtp (ui typed_password_world)) /\
  error (auth (ui (snd (loadSmtp unauthorized_401 (Resolves response_500)
                                 typed_password_world))))
  = "database is down" /\
  users (usersPanel (ui (snd (loadUsers unauthorized_401
                                (Rejects (Js.new_Error ""))
                                listed_users_world))))
  = [listed_user] /\
  error (auth (ui (snd (loadUsers unauthorized_401 (Rejects (Js.new_Error ""))
                                  listed_users_world))))
  = "Failed to load users".
Proof.
  destruct (failed_load_keeps_data unauthorized_401 typed_password_world
              eq_refl) as [Hsmtp _].
  destruct (failed_load_keeps_data unauthorized_401 listed_users_world
              eq_refl) as [_ Husers].
  destruct (Hsmtp (Resolves response_500) (conj eq_refl eq_refl))
    as (Hform & Herr & _).
  destruct (Husers (Rejects (Js.new_Error "")) I) as (Hlist & Herr' & _).
  split; [exact Hform|]. split; [exact Herr|].
  split; [exact Hlist|exact Herr'].
Defined.

(** X9 at work: the list the backend sends replaces the empty one. *)
Lemma loadUsers_witness :
  users (usersPanel (ui (snd (loadUsers unauthorized_401
      (Resolves (response_200 {| payload_users := [listed_user] |}))
      users_world))))
  = [listed_user].
Proof.
  exact (proj1 (loadUsers_replaces_list unauthorized_401 users_world
                  (response_200 {| payload_users := [listed_user] |})
                  {| payload_users := [listed_user] |}
                  eq_refl eq_refl eq_refl eq_refl)).
Defined.

(** X10 at work: disabling the listed user sends the PATCH and then the
    list request. *)
Lemma toggleUser_witness :
  requests (snd (toggleUser unauthorized_401 listed_user
                            (Resolves (response_200 tt)) no_answer
                            listed_users_world))
  = [patch_request listed_user (active_patch false); list_request].
Proof.
  exact (proj1 (proj2 (patch_actions_reload_once unauthorized_401
                         listed_users_world listed_user
                         (Resolves (response_200 tt)) no_answer
                         eq_refl (or_intror eq_refl)))).
Defined.

(** X11 at work: after a creation that succeeded no message is left. *)
Lemma created_message_witness :
  usersMessage (usersPanel (ui (snd (createUser unauthorized_401
      (Resolves (response_200 tt)) no_answer filled_form_world))))
  = "".
Proof.
  exact (proj1 (proj1 (reload_clears_success_message unauthorized_401
                         filled_form_world listed_user no_answer eq_refl)
                      (response_200 tt) eq_refl eq_refl)).
Defined.

(** X12 at work: a deletion answered by a 500 shows the backend's
    message and sends nothing more. *)
Lemma failed_delete_witness :
  failed_with listed_users_world
    (snd (deleteUserRow unauthorized_401 listed_user true
                        (Resolves response_500) no_answer listed_users_world))
    {| method := DELETE; url := UserUrl 7; body := NoBody |}
    "database is down".
Proof.
  exact (proj2 (proj2 (proj2 (failed_row_action_shows_message unauthorized_401
                                listed_users_world listed_user
                                (Resolves response_500) no_answer
                                (conj eq_refl eq_refl))))).
Defined.

(** X18 at work: on the users panel, typing and waiting send nothing
    after the list request of the mount. *)
Lemma search_disabled_witness :
  requests (world (run_events unauthorized_401 [Typed "a"; Elapsed 1000]
                     (mount unauthorized_401 (page_state Users) no_answer
                            no_answer)))
  = [list_request].
Proof.
  exact (eq_trans
           (proj2 (search_disabled_sends_nothing unauthorized_401
                     (page_state Users) no_answer no_answer
                     [Typed "a"; Elapsed 1000] eq_refl))
           eq_refl).
Defined.

(** X19 at work: the page is unmounted while the first request is in
    flight; its answer and the time that passes leave one request sent
    and the list empty. *)
Lemma unmounted_page_witness :
  requests (world (run_events unauthorized_401
                     [SupersededSettles 0 (FetchSettles (inr 200));
                      SupersededSettles 0 (BodyRead (JsonValue two_employees));
                      Elapsed 500]
                     (unmount (run_events unauthorized_401 [Elapsed 250]
                                          notifications_page))))
  = [search_request ""] /\
  employees (notify (ui (world (run_events unauthorized_401
                     [SupersededSettles 0 (FetchSettles (inr 200));
                      SupersededSettles 0 (BodyRead (JsonValue two_employees));
                      Elapsed 500]
                     (unmount (run_events unauthorized_401 [Elapsed 250]
                                          notifications_page))))))
  = [].
Proof.
  destruct (unmounted_page_is_quiet unauthorized_401
              (page_state Notifications) no_answer no_answer [Elapsed 250]
              [SupersededSettles 0 (FetchSettles (inr 200));
               SupersededSettles 0 (BodyRead (JsonValue two_employees));
               Elapsed 500])
    as (_ & Hreq & Hemp & _).
  - repeat constructor. cbn. lia.
  - split.
    + exact (eq_trans Hreq eq_refl).
    + exact (eq_trans Hemp eq_refl).
Defined.

(** X21 at work: the backend leaks a password on load; the operator
    edits host and port; the save submits an empty password. *)
Lemma typed_password_witness :
  password (smtpForm (smtp (ui
    (edit_smtp_all Some integer_of_string
       [EditHost "mail.example.com"; EditPort "2525"]
       (snd (loadSmtp unauthorized_401 (Resolves (response_200 leaky_payload))
                      typed_password_world))))))
  = "".
Proof.
  exact (proj2 (typed_password_is_sent Some integer_of_string unauthorized_401
                  unauthorized_401_only typed_password_world
                  (Resolves (response_200 leaky_payload)) no_answer
                  leaky_payload
                  [EditHost "mail.example.com"; EditPort "2525"] eq_refl
                  (ex_intro _ (response_200 leaky_payload)
                     (conj eq_refl (conj eq_refl eq_refl))))).
Defined.

(** X24 at work: the fifth of January 2024. *)
Lemma todayIsoDate_witness :
  todayIsoDate fifth_of_january = "2024-01-05" /\
  read_iso_date (todayIsoDate fifth_of_january) = Some (2024, 1, 5)%N.
Proof.
  split; [reflexivity|].
  apply (proj2 (todayIsoDate_reads_back fifth_of_january
                  ltac:(unfold calendar_date; cbn; lia))).
Defined.

(** X20 at work: Binu is chosen in the select and notified. *)
Lemma chosen_employee_witness :
  selectedEmployee (ui (snd (selectedCardNo_onChange "1002" employees_world)))
  = Some binu /\
  requests (snd (runNotifications unauthorized_401 selected no_answer
                   (snd (selectedCardNo_onChange "1002" employees_world))))
  = [run_request [("date", "2024-05-01"); ("card_no", "1002")]].
Proof.
  destruct (chosen_employee_is_notified unauthorized_401 employees_world binu
              no_answer)
    as (Hmemo & _ & Hreq).
  - right. left. reflexivity.
  - repeat constructor; cbn; intuition discriminate.
  - discriminate.
  - split; [exact Hmemo|exact Hreq].
Defined.

(** *** Runs of the model *)

Example trim_example : Js.trim "  http://api:8000/ " = "http://api:8000/".
Proof. reflexivity. Qed.

Example getBackendApiUrl_second_variable :
  ServerConfig.getBackendApiUrl
    {| ServerConfig.BACKEND_API_URL := Some "   ";
       ServerConfig.API_BASE_URL := Some " http://api:8000/ ";
       ServerConfig.NEXT_PUBLIC_API_BASE_URL := Some "http://public" |}
  = inl "http://api:8000".
Proof. reflexivity. Qed.

Example getBackendApiUrl_one_slash_only :
  ServerConfig.getBackendApiUrl
    {| ServerConfig.BACKEND_API_URL := Some "http://api//";
       ServerConfig.API_BASE_URL := None;
       ServerConfig.NEXT_PUBLIC_API_BASE_URL := None |}
  = inl "http://api/".
Proof. reflexivity. Qed.

Example getBackendApiUrl_unset :
  ServerConfig.getBackendApiUrl
    {| ServerConfig.BACKEND_API_URL := None;
       ServerConfig.API_BASE_URL := Some "";
       ServerConfig.NEXT_PUBLIC_API_BASE_URL := Some "  " |}
  = inr (Js.new_Error ServerConfig.missing_url_message).
Proof. reflexivity. Qed.

Example number_input_values :
  map Dom.number_input_value ["587"; ""; "abc"; "-"; "1e"; "1."; "-.5e+3"; "25.0"]
  = ["587"; ""; ""; ""; ""; ""; "-.5e+3"; "25.0"].
Proof. reflexivity. Qed.

Example smtp_port_runs :
  map (fun typed =>
         port (smtpForm (smtp (ui (snd (type_smtp_port Some integer_of_string
                                          typed smtp_world))))))
      ["465"; ""; "abc"]
  = [Some 465; Some 0; Some 0].
Proof. reflexivity. Qed.

(** A search that is not superseded: 250ms after the mount the request
    goes out, a 200 arrives, its body is read, and the first employee is
    selected. *)
Example search_completes :
  let p := settle_current unauthorized_401 (BodyRead (JsonValue two_employees))
             (settle_current unauthorized_401 (FetchSettles (inr 200))
                (advance 250 notifications_page)) in
  requests (world p) = [search_request ""] /\
  employees (notify (ui (world p))) = payload_employees two_employees /\
  selectedCardNo (notify (ui (world p))) = "1001" /\
  employeeLoading (notify (ui (world p))) = false /\
  current p = Some {| query := ""; aborted := false; stage := Finished |}.
Proof. repeat split. Qed.

(** C1, the claim as written fails: a keystroke that leaves the text as
    it was does not restart the timer.  "a" is typed, 200ms later a
    keystroke leaves the text at "a", 200ms later "b" is typed: each
    keystroke comes less than 250ms after the one before, and two requests
    go out, the one for "a" 250ms after the first keystroke. *)
Lemma unchanged_keystroke_lets_timer_fire :
  Forall (fun k => 0 <= fst k < 250) [(200, "a"); (200, "b")] /\
  requests (world (advance 250
     (type_keys "a" [(200, "a"); (200, "b")] notifications_page)))
  = [search_request "a"; search_request "b"].
Proof. split; [repeat constructor; cbn; lia|reflexivity]. Qed.
